(** * BrookCalcStandardMMForceFieldKernel

    A shallow embedding of
    [platforms/brook/src/BrookCalcStandardMMForceFieldKernel.cpp]: the
    kernel object of the Brook platform that sets up two delegate objects
    ([BrookBonded], [BrookNonBonded]) and, at every step, launches the
    device kernels that evaluate and gather the forces.

    The host code is sequencing code: what it does is the ordered list of
    calls it makes and the arguments it passes.  The embedding therefore
    runs every method in a small monad that threads the object state and
    records each call as an [Event]. *)

From Stdlib Require Import ZArith String List Bool Lia.
From Stdlib Require Import Floats.SpecFloat.
From Stdlib Require Import DecimalString DecimalPos DecimalZ.
From stdpp Require Import base option list gmap sets strings.

Local Open Scope string_scope.
Local Open Scope list_scope.
Local Open Scope Z_scope.

(** ** Host data *)

(** A C++ [double], as its IEEE-754 specification value. *)
Definition double := spec_float.

(** The literal [0.0]. *)
Definition double_zero : double := S754_zero false.

(** A [FILE*] that is not [NULL] is a handle; [NULL] is [None]. *)
Definition FILE := nat.

(** Identity of an object allocated with [new]. *)
Definition ptr := nat.

(** The platform a kernel was created for.  Only its log is consulted. *)
Record Platform := mkPlatform {
  isBrookPlatform : bool;
  platformLog : option FILE
}.

(** A [float] argument of a kernel launch, as the expression the host
    evaluates for it. *)
Inductive FloatExpr :=
| FLit (text : string)            (* a literal, e.g. 138.935485f *)
| FCastInt (n : Z)                (* (float) n, with n an int *)
| FCastProduct (a b : double).    (* (float) (a*b), with a and b doubles *)

(** The streams a launch can name: the two arguments of [executeForces]
    and the streams owned by the two delegates. *)
Inductive StreamRef :=
| PositionStream
| ForceStream
| NB_ChargeStream
| NB_OuterVdwStream
| NB_InnerSigmaStream
| NB_InnerEpsilonStream
| NB_ExclusionStream
| NB_ForceStreams (i : nat)            (* getForceStreams()[i] *)
| B_ChargeStream
| B_AtomIndicesStream
| B_ParameterStreams (i : nat)         (* getBondedParameterStreams()[i] *)
| B_ForceStreams (i : nat)             (* getBondedForceStreams()[i] *)
| B_InverseStreamMaps (role j : nat).  (* getInverseStreamMapsStreams( role )[j] *)

#[global] Instance StreamRef_eq_dec : EqDecision StreamRef.
Proof. solve_decision. Defined.

(** One actual argument of a kernel launch. *)
Inductive Arg :=
| AFloat (e : FloatExpr)
| AFloat4 (x y z w : FloatExpr)
| AStream (s : StreamRef).

(** The device kernels declared in kforce.h and kinvmap_gather.h. *)
Inductive KernelName :=
| knbforce_CDLJ4
| kMergeFloat3_4_nobranch
| kbonded_CDLJ
| kinvmap_gather3_4
| kinvmap_gather3_5
| kinvmap_gather5_2.

#[global] Instance KernelName_eq_dec : EqDecision KernelName.
Proof. solve_decision. Defined.

Inductive PrintfArg :=
| PString (s : string)
| PInt (n : Z)
| PFloat (e : FloatExpr)
| PDouble (d : double).

(** ** The delegates, as seen through the getters this file calls *)

Module BrookBonded.
Record t := mk {
  getLog : option FILE;
  getLJ_14Scale : double;
  getCoulombFactor : double;
  getInverseMapStreamWidth : Z;
  getInverseMapStreamCount : nat -> Z;
  getBondedForceStreamWidth : nat -> Z;  (* getBondedForceStreams()[i]->getStreamWidth() *)
  getContentsString : string
}.
End BrookBonded.

Module BrookNonBonded.
Record t := mk {
  getNumberOfAtoms : Z;
  getAtomSizeCeiling : Z;
  getDuplicationFactor : Z;
  getAtomStreamHeight : Z;
  getAtomStreamWidth : Z;
  getJStreamWidth : Z;
  getPartialForceStreamWidth : Z;
  getOuterLoopUnroll : Z;
  getContentsString : string
}.
End BrookNonBonded.

(** ** Arguments of [initialize] *)

Record InitializeArgs := mkInitializeArgs {
  bondIndices : list (list Z);
  bondParameters : list (list double);
  angleIndices : list (list Z);
  angleParameters : list (list double);
  periodicTorsionIndices : list (list Z);
  periodicTorsionParameters : list (list double);
  rbTorsionIndices : list (list Z);
  rbTorsionParameters : list (list double);
  bonded14Indices : list (list Z);
  lj14Scale : double;
  coulomb14Scale : double;
  exclusions : list (gset Z);
  nonbondedParameters : list (list double);
  nonbondedMethod : Z;                 (* the enum NonbondedMethod, by its value *)
  nonbondedCutoff : double;
  periodicBoxSize : list double        (* double[3] *)
}.

(** What [BrookBonded::setup] receives, in the order of the call. *)
Record BondedSetupCall := mkBondedSetupCall {
  bs_numberOfAtoms : Z;
  bs_bondIndices : list (list Z);
  bs_bondParameters : list (list double);
  bs_angleIndices : list (list Z);
  bs_angleParameters : list (list double);
  bs_periodicTorsionIndices : list (list Z);
  bs_periodicTorsionParameters : list (list double);
  bs_rbTorsionIndices : list (list Z);
  bs_rbTorsionParameters : list (list double);
  bs_bonded14Indices : list (list Z);
  bs_nonbondedParameters : list (list double);
  bs_lj14Scale : double;
  bs_coulomb14Scale : double;
  bs_platform : Platform
}.

(** What [BrookNonBonded::setup] receives, in the order of the call. *)
Record NonBondedSetupCall := mkNonBondedSetupCall {
  ns_numberOfAtoms : Z;
  ns_nonbondedParameters : list (list double);
  ns_exclusions : list (gset Z);
  ns_platform : Platform
}.

Inductive DelegateClass := ClassBrookBonded | ClassBrookNonBonded.

(** ** Events: every call the kernel object makes *)

Inductive Event :=
| Launch (k : KernelName) (args : list Arg)
| Fprintf (f : option FILE) (format : string) (args : list PrintfArg)
| Fflush (f : option FILE)
| PrintToFile (s : StreamRef) (f : option FILE)
| Delete (c : DelegateClass) (p : ptr)
| New (c : DelegateClass) (p : ptr)
| SetLog (c : DelegateClass) (p : ptr) (log : option FILE)
| BondedSetup (p : ptr) (call : BondedSetupCall)
| NonBondedSetup (p : ptr) (call : NonBondedSetupCall).

(** ** The kernel object and the objects it owns *)

Record Kernel := mkKernel {
  _numberOfAtoms : Z;
  _brookBonded : option ptr;           (* NULL is None *)
  _brookNonBonded : option ptr;
  _log : option FILE;
  getPlatform : Platform
}.

Record State := mkState {
  self : Kernel;
  bondedObjects : gmap ptr BrookBonded.t;
  nonBondedObjects : gmap ptr BrookNonBonded.t;
  nextObject : ptr                      (* identity of the next object [new] makes *)
}.

(** ** The monad of a method body *)

Inductive Result (A : Type) :=
| Ok (a : A) (s : State)
| Thrown (what : string) (s : State)    (* an OpenMMException *)
| Undefined.                            (* a null pointer was dereferenced *)
Arguments Ok {A} a s.
Arguments Thrown {A} what s.
Arguments Undefined {A}.

Definition M (A : Type) : Type := State -> list Event * Result A.

Definition ret {A} (a : A) : M A := fun s => ([], Ok a s).

Definition bind {A B} (m : M A) (f : A -> M B) : M B :=
  fun s =>
    match m s with
    | (t, Ok a s') => let '(t', r) := f a s' in (t ++ t', r)
    | (t, Thrown what s') => (t, Thrown what s')
    | (t, Undefined) => (t, Undefined)
    end.

Definition emit (e : Event) : M unit := fun s => ([e], Ok tt s).
Definition throw {A} (what : string) : M A := fun s => ([], Thrown what s).
Definition undefined {A} : M A := fun _ => ([], Undefined).
Definition get : M State := fun s => ([], Ok s s).
Definition put (s : State) : M unit := fun _ => ([], Ok tt s).

Declare Scope kernel_scope.
Delimit Scope kernel_scope with kernel.
Notation "'let*' x <- m 'in' k" := (bind m (fun x => k))
  (at level 10, x name, m at level 100, k at level 200) : kernel_scope.
Notation "'run' m 'in' k" := (bind m (fun _ => k))
  (at level 10, m at level 100, k at level 200) : kernel_scope.
Local Open Scope kernel_scope.

Definition when (b : bool) (m : M unit) : M unit := if b then m else ret tt.

Fixpoint for_each {A} (l : list A) (body : A -> M unit) : M unit :=
  match l with
  | [] => ret tt
  | a :: l' => bind (body a) (fun _ => for_each l' body)
  end.

(** [p->...] for a delegate pointer: undefined on [NULL] and on a deleted object. *)
Definition deref_bonded (p : option ptr) : M BrookBonded.t :=
  fun s =>
    match p with
    | Some a => match bondedObjects s !! a with
                | Some b => ([], Ok b s)
                | None => ([], Undefined)
                end
    | None => ([], Undefined)
    end.

Definition deref_nonbonded (p : option ptr) : M BrookNonBonded.t :=
  fun s =>
    match p with
    | Some a => match nonBondedObjects s !! a with
                | Some b => ([], Ok b s)
                | None => ([], Undefined)
                end
    | None => ([], Undefined)
    end.

Definition this : M Kernel := fun s => ([], Ok (self s) s).

(** ** Constructor, [getLog], [setLog] *)

(** The constructor.  The [dynamic_cast] to [BrookPlatform] throws
    [std::bad_cast] on another platform ([None]).  [_log] is assigned only
    when the platform has a log; otherwise it keeps the value
    [indeterminate] the storage happened to hold. *)
Definition construct (platform : Platform) (indeterminate : option FILE)
  : option Kernel :=
  if isBrookPlatform platform then
    Some {| _numberOfAtoms := 0;
            _brookBonded := None;
            _brookNonBonded := None;
            _log := match platformLog platform with
                    | Some l => Some l
                    | None => indeterminate
                    end;
            getPlatform := platform |}
  else None.

Definition getLog : M (option FILE) :=
  let* k <- this in ret (_log k).

(** [DefaultReturnValue] is a constant of [BrookCommon]; it is a parameter here. *)
Definition setLog (DefaultReturnValue : Z) (log : option FILE) : M Z :=
  let* s <- get in
  let k := self s in
  run put (mkState
             (mkKernel (_numberOfAtoms k) (_brookBonded k) (_brookNonBonded k)
                       log (getPlatform k))
             (bondedObjects s) (nonBondedObjects s) (nextObject s)) in
  ret DefaultReturnValue.

(** ** [executeForces] *)

Definition methodName_executeForces : string :=
  "BrookCalcStandardMMForceFieldKernel::executeForces".

Definition I_Stream : nat := 0.
Definition J_Stream : nat := 1.
Definition K_Stream : nat := 2.
Definition L_Stream : nat := 3.

Definition PrintOn : bool := false.     (* static const int PrintOn = 0 *)

Definition dummyParameters : Arg :=
  AFloat4 (FLit "0.0") (FLit "0.0") (FLit "0.0") (FLit "0.0").

(** [operator<<] of an [int] into a [std::stringstream]. *)
Definition decimal (n : Z) : string := NilZero.string_of_int (Z.to_int n).

(** Both arguments are streams of the Brook platform (the [dynamic_cast]s
    on [positions.getImpl()] and [forces.getImpl()] succeed); they are
    named [PositionStream] and [ForceStream]. *)
Definition executeForces : M unit :=
  let* k <- this in
  let positionStream := PositionStream in
  let forceStream := ForceStream in

  (* nonbonded forces *)
  let* nonBonded <- deref_nonbonded (_brookNonBonded k) in
  let nonbondedForceStreams := NB_ForceStreams in
  let epsfac := FLit "138.935485f" in
  run emit (Launch knbforce_CDLJ4
         [ AFloat (FCastInt (BrookNonBonded.getNumberOfAtoms nonBonded));
           AFloat (FCastInt (BrookNonBonded.getAtomSizeCeiling nonBonded));
           AFloat (FCastInt (BrookNonBonded.getDuplicationFactor nonBonded));
           AFloat (FCastInt (BrookNonBonded.getAtomStreamHeight nonBonded));
           AFloat (FCastInt (BrookNonBonded.getAtomStreamWidth nonBonded));
           AFloat (FCastInt (BrookNonBonded.getJStreamWidth nonBonded));
           AFloat (FCastInt (BrookNonBonded.getPartialForceStreamWidth nonBonded));
           AFloat epsfac;
           dummyParameters;
           AStream positionStream;
           AStream NB_ChargeStream;
           AStream NB_OuterVdwStream;
           AStream NB_InnerSigmaStream;
           AStream NB_InnerEpsilonStream;
           AStream NB_ExclusionStream;
           AStream (nonbondedForceStreams 0%nat);
           AStream (nonbondedForceStreams 1%nat);
           AStream (nonbondedForceStreams 2%nat);
           AStream (nonbondedForceStreams 3%nat) ]) in

  (* diagnostics *)
  run when PrintOn (
    let* log <- getLog in
    run emit (Fprintf log "\nPost knbforce_CDLJ4: atoms=%6d ceiling=%3d dupFac=%3d"
           [ PInt (BrookNonBonded.getNumberOfAtoms nonBonded);
             PInt (BrookNonBonded.getAtomSizeCeiling nonBonded);
             PInt (BrookNonBonded.getDuplicationFactor nonBonded) ]) in
    run emit (Fprintf log "\n                      hght=%6d   width=%3d   jWid=%3d"
           [ PInt (BrookNonBonded.getAtomStreamHeight nonBonded);
             PInt (BrookNonBonded.getAtomStreamWidth nonBonded);
             PInt (BrookNonBonded.getJStreamWidth nonBonded) ]) in
    run emit (Fprintf log "\n                      pFrc=%6d     eps=%12.5e\n"
           [ PInt (BrookNonBonded.getPartialForceStreamWidth nonBonded);
             PFloat epsfac ]) in
    run emit (Fprintf log "\nOuterVdwStreamd\n" []) in
    run emit (PrintToFile NB_OuterVdwStream log) in
    run emit (Fprintf log "\nInnerSigmaStream\n" []) in
    run emit (PrintToFile NB_InnerSigmaStream log) in
    run emit (Fprintf log "\nInnerEpsilonStream\n" []) in
    run emit (PrintToFile NB_InnerEpsilonStream log) in
    run emit (Fprintf log "\nExclusionStream\n" []) in
    run emit (PrintToFile NB_ExclusionStream log) in
    run emit (Fprintf log "\nChargeStream\n" []) in
    run emit (PrintToFile NB_ChargeStream log) in
    for_each (seq 0 4) (fun ii =>
      run emit (Fprintf log "\nForce stream %d\n" [ PInt (Z.of_nat ii) ]) in
      emit (PrintToFile (nonbondedForceStreams ii) log))) in

  (* gather forces *)
  run emit (Launch kMergeFloat3_4_nobranch
         [ AFloat (FCastInt (BrookNonBonded.getDuplicationFactor nonBonded));
           AFloat (FCastInt (BrookNonBonded.getAtomStreamWidth nonBonded));
           AFloat (FCastInt (BrookNonBonded.getPartialForceStreamWidth nonBonded));
           AFloat (FCastInt (BrookNonBonded.getNumberOfAtoms nonBonded));
           AFloat (FCastInt (BrookNonBonded.getAtomSizeCeiling nonBonded));
           AFloat (FCastInt (BrookNonBonded.getOuterLoopUnroll nonBonded));
           AStream (nonbondedForceStreams 0%nat);
           AStream (nonbondedForceStreams 1%nat);
           AStream (nonbondedForceStreams 2%nat);
           AStream (nonbondedForceStreams 3%nat);
           AStream forceStream ]) in

  (* bonded *)
  let* bonded <- deref_bonded (_brookBonded k) in
  let epsfac := FCastProduct (BrookBonded.getLJ_14Scale bonded)
                             (BrookBonded.getCoulombFactor bonded) in
  let width := FCastInt (BrookBonded.getInverseMapStreamWidth bonded) in

  (* bonded forces *)
  let bondedParameters := B_ParameterStreams in
  let bondedForceStreams := B_ForceStreams in
  let inverseStreamMaps := B_InverseStreamMaps in

  run emit (Launch kbonded_CDLJ
         [ AFloat epsfac;
           AFloat (FCastInt (BrookBonded.getBondedForceStreamWidth bonded 0%nat));
           dummyParameters;
           AStream positionStream;
           AStream B_ChargeStream;
           AStream B_AtomIndicesStream;
           AStream (bondedParameters 0%nat);
           AStream (bondedParameters 1%nat);
           AStream (bondedParameters 2%nat);
           AStream (bondedParameters 3%nat);
           AStream (bondedParameters 4%nat);
           AStream (bondedForceStreams 0%nat);
           AStream (bondedForceStreams 1%nat);
           AStream (bondedForceStreams 2%nat);
           AStream (bondedForceStreams 3%nat) ]) in

  (* diagnostics *)
  run when (true && PrintOn) (
    let countPrintInvMap := [3; 5; 2; 4]%nat in
    let* log <- getLog in
    run emit (Fprintf log "\nPost kbonded_CDLJ: epsFac=%.6f %.6f %.6f"
           [ PFloat epsfac;
             PDouble (BrookBonded.getLJ_14Scale bonded);
             PDouble (BrookBonded.getCoulombFactor bonded) ]) in
    run emit (Fprintf log "\nAtom indices stream\n" []) in
    run emit (PrintToFile B_AtomIndicesStream log) in
    run emit (Fprintf log "\nCharge stream\n" []) in
    run emit (PrintToFile B_ChargeStream log) in
    run for_each (seq 0 5) (fun ii =>
      run emit (Fprintf log "\nParam stream %d\n" [ PInt (Z.of_nat ii) ]) in
      emit (PrintToFile (bondedParameters ii) log)) in
    run for_each (seq 0 4) (fun ii =>
      run emit (Fprintf log "\nForce stream %d\n" [ PInt (Z.of_nat ii) ]) in
      emit (PrintToFile (bondedForceStreams ii) log)) in
    run emit (Fprintf log "\nInverse map streams\n" []) in
    for_each (seq 0 4) (fun ii =>
      for_each (seq 0 (nth ii countPrintInvMap 0%nat)) (fun jj =>
        run emit (Fprintf log "\n   Inverse map streams index=%d %d\n"
               [ PInt (Z.of_nat ii); PInt (Z.of_nat jj) ]) in
        emit (PrintToFile (inverseStreamMaps ii jj) log)))) in

  (* gather forces *)
  run (if BrookBonded.getInverseMapStreamCount bonded K_Stream <=? 4 then
         emit (Launch kinvmap_gather3_4
           [ AFloat width;
             AStream (inverseStreamMaps I_Stream 0%nat);
             AStream (inverseStreamMaps I_Stream 1%nat);
             AStream (inverseStreamMaps I_Stream 2%nat);
             AStream (bondedForceStreams I_Stream);
             AStream (inverseStreamMaps K_Stream 0%nat);
             AStream (inverseStreamMaps K_Stream 1%nat);
             AStream (inverseStreamMaps K_Stream 2%nat);
             AStream (inverseStreamMaps K_Stream 3%nat);
             AStream (bondedForceStreams K_Stream);
             AStream forceStream; AStream forceStream ])
       else if BrookBonded.getInverseMapStreamCount bonded K_Stream =? 5 then
         emit (Launch kinvmap_gather3_5
           [ AFloat width;
             AStream (inverseStreamMaps I_Stream 0%nat);
             AStream (inverseStreamMaps I_Stream 1%nat);
             AStream (inverseStreamMaps I_Stream 2%nat);
             AStream (bondedForceStreams I_Stream);
             AStream (inverseStreamMaps K_Stream 0%nat);
             AStream (inverseStreamMaps K_Stream 1%nat);
             AStream (inverseStreamMaps K_Stream 2%nat);
             AStream (inverseStreamMaps K_Stream 3%nat);
             AStream (inverseStreamMaps K_Stream 4%nat);
             AStream (bondedForceStreams K_Stream);
             AStream forceStream; AStream forceStream ])
       else
         (* case not handled -- throw an exception *)
         run when (bool_decide (is_Some (BrookBonded.getLog bonded))) (
           run emit (Fprintf (BrookBonded.getLog bonded)
                  "%s nkmaps=%d -- not handled."
                  [ PString methodName_executeForces;
                    PInt (BrookBonded.getInverseMapStreamCount bonded K_Stream) ]) in
           emit (Fflush (BrookBonded.getLog bonded))) in
         throw (methodName_executeForces +:+ "K-maps=" +:+
                decimal (BrookBonded.getInverseMapStreamCount bonded K_Stream) +:+
                " not handled.")) in

  emit (Launch kinvmap_gather5_2
         [ AFloat width;
           AStream (inverseStreamMaps J_Stream 0%nat);
           AStream (inverseStreamMaps J_Stream 1%nat);
           AStream (inverseStreamMaps J_Stream 2%nat);
           AStream (inverseStreamMaps J_Stream 3%nat);
           AStream (inverseStreamMaps J_Stream 4%nat);
           AStream (bondedForceStreams J_Stream);
           AStream (inverseStreamMaps L_Stream 0%nat);
           AStream (inverseStreamMaps L_Stream 1%nat);
           AStream (bondedForceStreams L_Stream);
           AStream forceStream; AStream forceStream ]).

(** ** [executeEnergy] *)

Definition executeEnergy (positions : StreamRef) : M double :=
  ret double_zero.

(** ** [initialize] *)

Definition methodName_initialize : string :=
  "BrookCalcStandardMMForceFieldKernel::initialize".

Definition set_numberOfAtoms (n : Z) : M unit :=
  fun s =>
    let k := self s in
    ([], Ok tt (mkState
                  (mkKernel n (_brookBonded k) (_brookNonBonded k) (_log k)
                            (getPlatform k))
                  (bondedObjects s) (nonBondedObjects s) (nextObject s))).

Definition set_brookBonded (p : option ptr) : M unit :=
  fun s =>
    let k := self s in
    ([], Ok tt (mkState
                  (mkKernel (_numberOfAtoms k) p (_brookNonBonded k) (_log k)
                            (getPlatform k))
                  (bondedObjects s) (nonBondedObjects s) (nextObject s))).

Definition set_brookNonBonded (p : option ptr) : M unit :=
  fun s =>
    let k := self s in
    ([], Ok tt (mkState
                  (mkKernel (_numberOfAtoms k) (_brookBonded k) p (_log k)
                            (getPlatform k))
                  (bondedObjects s) (nonBondedObjects s) (nextObject s))).

(** [delete p] on a delegate: the object stops existing.  Deleting
    something that is not a live object is undefined. *)
Definition delete_bonded (p : ptr) : M unit :=
  fun s =>
    match bondedObjects s !! p with
    | Some _ =>
        ([Delete ClassBrookBonded p],
         Ok tt (mkState (self s) (delete p (bondedObjects s))
                        (nonBondedObjects s) (nextObject s)))
    | None => ([], Undefined)
    end.

Definition delete_nonbonded (p : ptr) : M unit :=
  fun s =>
    match nonBondedObjects s !! p with
    | Some _ =>
        ([Delete ClassBrookNonBonded p],
         Ok tt (mkState (self s) (bondedObjects s)
                        (delete p (nonBondedObjects s)) (nextObject s)))
    | None => ([], Undefined)
    end.

(** The delegate classes are implemented in BrookBonded.cpp and
    BrookNonBonded.cpp.  Their constructors, [setLog] and [setup] are an
    interface here: the state of a freshly constructed object, and what
    each method makes of the object it is called on. *)
Class DelegateMethods := {
  BrookBonded_new : BrookBonded.t;
  BrookBonded_setLog : option FILE -> BrookBonded.t -> BrookBonded.t;
  BrookBonded_setup : BondedSetupCall -> BrookBonded.t -> BrookBonded.t;
  BrookNonBonded_new : BrookNonBonded.t;
  BrookNonBonded_setLog : option FILE -> BrookNonBonded.t -> BrookNonBonded.t;
  BrookNonBonded_setup :
    NonBondedSetupCall -> BrookNonBonded.t -> BrookNonBonded.t
}.

Section Delegates.

Context {methods : DelegateMethods}.

(** [new BrookBonded()] *)
Definition new_bonded : M ptr :=
  fun s =>
    let p := nextObject s in
    ([New ClassBrookBonded p],
     Ok p (mkState (self s) (<[p := BrookBonded_new]> (bondedObjects s))
                   (nonBondedObjects s) (S p))).

(** [new BrookNonBonded()] *)
Definition new_nonbonded : M ptr :=
  fun s =>
    let p := nextObject s in
    ([New ClassBrookNonBonded p],
     Ok p (mkState (self s) (bondedObjects s)
                   (<[p := BrookNonBonded_new]> (nonBondedObjects s)) (S p))).

(** A method call [p->m( ... )] that changes the object [p] points to. *)
Definition call_bonded (p : option ptr) (e : ptr -> Event)
           (m : BrookBonded.t -> BrookBonded.t) : M unit :=
  fun s =>
    match p with
    | Some a =>
        match bondedObjects s !! a with
        | Some b =>
            ([e a], Ok tt (mkState (self s) (<[a := m b]> (bondedObjects s))
                                   (nonBondedObjects s) (nextObject s)))
        | None => ([], Undefined)
        end
    | None => ([], Undefined)
    end.

Definition call_nonbonded (p : option ptr) (e : ptr -> Event)
           (m : BrookNonBonded.t -> BrookNonBonded.t) : M unit :=
  fun s =>
    match p with
    | Some a =>
        match nonBondedObjects s !! a with
        | Some b =>
            ([e a], Ok tt (mkState (self s) (bondedObjects s)
                                   (<[a := m b]> (nonBondedObjects s))
                                   (nextObject s)))
        | None => ([], Undefined)
        end
    | None => ([], Undefined)
    end.

Definition initialize (a : InitializeArgs) : M unit :=
  let* log <- getLog in
  run set_numberOfAtoms (Z.of_nat (length (nonbondedParameters a))) in

  (* bonded *)
  let* k <- this in
  run match _brookBonded k with
      | Some p => delete_bonded p
      | None => ret tt
      end in
  let* p <- new_bonded in
  run set_brookBonded (Some p) in
  let* k <- this in
  run call_bonded (_brookBonded k) (fun p => SetLog ClassBrookBonded p log)
        (BrookBonded_setLog log) in
  let call :=
    {| bs_numberOfAtoms := _numberOfAtoms k;
       bs_bondIndices := bondIndices a;
       bs_bondParameters := bondParameters a;
       bs_angleIndices := angleIndices a;
       bs_angleParameters := angleParameters a;
       bs_periodicTorsionIndices := periodicTorsionIndices a;
       bs_periodicTorsionParameters := periodicTorsionParameters a;
       bs_rbTorsionIndices := rbTorsionIndices a;
       bs_rbTorsionParameters := rbTorsionParameters a;
       bs_bonded14Indices := bonded14Indices a;
       bs_nonbondedParameters := nonbondedParameters a;
       bs_lj14Scale := lj14Scale a;
       bs_coulomb14Scale := coulomb14Scale a;
       bs_platform := getPlatform k |} in
  run call_bonded (_brookBonded k) (fun p => BondedSetup p call)
        (BrookBonded_setup call) in

  (* echo contents *)
  run when (bool_decide (is_Some log)) (
    let* bonded <- deref_bonded (_brookBonded k) in
    let contents := BrookBonded.getContentsString bonded in
    run emit (Fprintf log "%s brookBonded::contents\n%s"
           [ PString methodName_initialize; PString contents ]) in
    emit (Fflush log)) in

  (* nonbonded *)
  let* k <- this in
  run match _brookNonBonded k with
      | Some p => delete_nonbonded p
      | None => ret tt
      end in
  let* p <- new_nonbonded in
  run set_brookNonBonded (Some p) in
  let* k <- this in
  run call_nonbonded (_brookNonBonded k)
        (fun p => SetLog ClassBrookNonBonded p log)
        (BrookNonBonded_setLog log) in
  let call :=
    {| ns_numberOfAtoms := _numberOfAtoms k;
       ns_nonbondedParameters := nonbondedParameters a;
       ns_exclusions := exclusions a;
       ns_platform := getPlatform k |} in
  run call_nonbonded (_brookNonBonded k) (fun p => NonBondedSetup p call)
        (BrookNonBonded_setup call) in

  (* echo contents *)
  when (bool_decide (is_Some log)) (
    let* nonBonded <- deref_nonbonded (_brookNonBonded k) in
    let contents := BrookNonBonded.getContentsString nonBonded in
    run emit (Fprintf log "%s brookNonBonded::contents\n%s"
           [ PString methodName_initialize; PString contents ]) in
    emit (Fflush log)).

(** The destructor: [delete] of a null pointer does nothing. *)
Definition destroy : M unit :=
  let* k <- this in
  run match _brookBonded k with
      | Some p => delete_bonded p
      | None => ret tt
      end in
  match _brookNonBonded k with
  | Some p => delete_nonbonded p
  | None => ret tt
  end.

End Delegates.

(** ** What the launches do to the streams *)

(** Modelled from the spec: the device kernels are declared in kforce.h and
    kinvmap_gather.h and written in the stream language; neither is part of
    this file.  The spec has the term evaluator produce one partial-force
    buffer per slot and the gather read two slots' maps and buffers and
    read-modify-write the output force array.  The call sites agree: the
    streams a kernel writes come last in its argument list, four partial
    force streams for each of the two evaluators, the force stream for the
    merge and for the three gathers; a gather is handed the force stream
    twice, once to read it and once to write it, the merge once.  Whether
    a kernel also uses what a stream it writes held before is not fixed
    by this split: [launch] below gives a kernel its inputs only,
    [launch_in_place] also what its output streams held. *)
Definition outputs (k : KernelName) : nat :=
  match k with
  | knbforce_CDLJ4 => 4
  | kbonded_CDLJ => 4
  | kMergeFloat3_4_nobranch => 1
  | kinvmap_gather3_4 => 1
  | kinvmap_gather3_5 => 1
  | kinvmap_gather5_2 => 1
  end.

Fixpoint stream_args (args : list Arg) : list StreamRef :=
  match args with
  | [] => []
  | AStream r :: rest => r :: stream_args rest
  | _ :: rest => stream_args rest
  end.

Fixpoint scalar_args (args : list Arg) : list Arg :=
  match args with
  | [] => []
  | AStream _ :: rest => scalar_args rest
  | a :: rest => a :: scalar_args rest
  end.

(** The streams a launch reads, and the streams it writes. *)
Definition reads (k : KernelName) (args : list Arg) : list StreamRef :=
  let streams := stream_args args in
  take (length streams - outputs k) streams.

Definition writes (k : KernelName) (args : list Arg) : list StreamRef :=
  let streams := stream_args args in
  drop (length streams - outputs k) streams.

Definition event_writes (e : Event) : list StreamRef :=
  match e with
  | Launch k args => writes k args
  | _ => []
  end.

Definition event_reads (e : Event) : list StreamRef :=
  match e with
  | Launch k args => reads k args
  | _ => []
  end.

Section Device.

(** Contents of a stream. *)
Variable V : Type.

(** Modelled from the spec: what a kernel computes for its [j]-th output
    from its scalar arguments and the contents of its input streams.
    The kernels themselves are not part of this file, so this is a
    parameter. *)
Variable device : KernelName -> list Arg -> list V -> nat -> V.

Definition Store : Type := StreamRef -> V.

Definition write (r : StreamRef) (v : V) (m : Store) : Store :=
  fun r' => if decide (r' = r) then v else m r'.

Fixpoint write_outputs (j : nat) (outs : list StreamRef) (f : nat -> V)
         (m : Store) : Store :=
  match outs with
  | [] => m
  | r :: rest => write_outputs (S j) rest f (write r (f j) m)
  end.

Definition launch (k : KernelName) (args : list Arg) (m : Store) : Store :=
  let inputs := map m (reads k args) in
  write_outputs 0 (writes k args) (device k (scalar_args args) inputs) m.

Definition step (m : Store) (e : Event) : Store :=
  match e with
  | Launch k args => launch k args m
  | _ => m
  end.

Definition run_events (t : list Event) (m : Store) : Store :=
  fold_left step t m.

(** The streams after an [executeForces] call made in state [s]. *)
Definition streams_after_executeForces (s : State) (m : Store) : Store :=
  run_events (fst (executeForces s)) m.

End Device.

Arguments write {V} r v m.
Arguments run_events {V} device t m.
Arguments streams_after_executeForces {V} device s m.

(** ** Vocabulary of the statements *)

(** The delegates the kernel's pointers lead to, when they are live objects. *)
Definition bonded_of (s : State) : option BrookBonded.t :=
  match _brookBonded (self s) with
  | Some p => bondedObjects s !! p
  | None => None
  end.

Definition nonbonded_of (s : State) : option BrookNonBonded.t :=
  match _brookNonBonded (self s) with
  | Some p => nonBondedObjects s !! p
  | None => None
  end.

(** The number of inverse-map streams of the K slot. *)
Definition K_count (b : BrookBonded.t) : Z :=
  BrookBonded.getInverseMapStreamCount b K_Stream.

Definition is_IK_gather (e : Event) : bool :=
  match e with
  | Launch kinvmap_gather3_4 _ | Launch kinvmap_gather3_5 _ => true
  | _ => false
  end.

Definition is_JL_gather (e : Event) : bool :=
  match e with
  | Launch kinvmap_gather5_2 _ => true
  | _ => false
  end.

Definition is_gather (e : Event) : bool := is_IK_gather e || is_JL_gather e.

Definition writes_forces (e : Event) : bool :=
  bool_decide (ForceStream ∈ event_writes e).

Definition launched (e : Event) : option KernelName :=
  match e with
  | Launch k _ => Some k
  | _ => None
  end.

(** The kernels a trace launches, in order. *)
Definition launches (t : list Event) : list KernelName := omap launched t.

(** The message of the exception [executeForces] throws. *)
Definition not_handled (count : Z) : string :=
  methodName_executeForces +:+ "K-maps=" +:+ decimal count +:+ " not handled.".

(** The argument lists of the three gathers, as the source writes them. *)
Definition gather3_4_args (b : BrookBonded.t) : list Arg :=
  [ AFloat (FCastInt (BrookBonded.getInverseMapStreamWidth b));
    AStream (B_InverseStreamMaps I_Stream 0); AStream (B_InverseStreamMaps I_Stream 1);
    AStream (B_InverseStreamMaps I_Stream 2);
    AStream (B_ForceStreams I_Stream);
    AStream (B_InverseStreamMaps K_Stream 0); AStream (B_InverseStreamMaps K_Stream 1);
    AStream (B_InverseStreamMaps K_Stream 2); AStream (B_InverseStreamMaps K_Stream 3);
    AStream (B_ForceStreams K_Stream);
    AStream ForceStream; AStream ForceStream ].

Definition gather3_5_args (b : BrookBonded.t) : list Arg :=
  [ AFloat (FCastInt (BrookBonded.getInverseMapStreamWidth b));
    AStream (B_InverseStreamMaps I_Stream 0); AStream (B_InverseStreamMaps I_Stream 1);
    AStream (B_InverseStreamMaps I_Stream 2);
    AStream (B_ForceStreams I_Stream);
    AStream (B_InverseStreamMaps K_Stream 0); AStream (B_InverseStreamMaps K_Stream 1);
    AStream (B_InverseStreamMaps K_Stream 2); AStream (B_InverseStreamMaps K_Stream 3);
    AStream (B_InverseStreamMaps K_Stream 4);
    AStream (B_ForceStreams K_Stream);
    AStream ForceStream; AStream ForceStream ].

Definition gather5_2_args (b : BrookBonded.t) : list Arg :=
  [ AFloat (FCastInt (BrookBonded.getInverseMapStreamWidth b));
    AStream (B_InverseStreamMaps J_Stream 0); AStream (B_InverseStreamMaps J_Stream 1);
    AStream (B_InverseStreamMaps J_Stream 2); AStream (B_InverseStreamMaps J_Stream 3);
    AStream (B_InverseStreamMaps J_Stream 4);
    AStream (B_ForceStreams J_Stream);
    AStream (B_InverseStreamMaps L_Stream 0); AStream (B_InverseStreamMaps L_Stream 1);
    AStream (B_ForceStreams L_Stream);
    AStream ForceStream; AStream ForceStream ].

(** The merge of the nonbonded partial forces, as the source writes it. *)
Definition merge_args (nb : BrookNonBonded.t) : list Arg :=
  [ AFloat (FCastInt (BrookNonBonded.getDuplicationFactor nb));
    AFloat (FCastInt (BrookNonBonded.getAtomStreamWidth nb));
    AFloat (FCastInt (BrookNonBonded.getPartialForceStreamWidth nb));
    AFloat (FCastInt (BrookNonBonded.getNumberOfAtoms nb));
    AFloat (FCastInt (BrookNonBonded.getAtomSizeCeiling nb));
    AFloat (FCastInt (BrookNonBonded.getOuterLoopUnroll nb));
    AStream (NB_ForceStreams 0); AStream (NB_ForceStreams 1);
    AStream (NB_ForceStreams 2); AStream (NB_ForceStreams 3);
    AStream ForceStream ].

(** The two evaluators, as the source writes them. *)
Definition knbforce_args (nb : BrookNonBonded.t) : list Arg :=
  [ AFloat (FCastInt (BrookNonBonded.getNumberOfAtoms nb));
    AFloat (FCastInt (BrookNonBonded.getAtomSizeCeiling nb));
    AFloat (FCastInt (BrookNonBonded.getDuplicationFactor nb));
    AFloat (FCastInt (BrookNonBonded.getAtomStreamHeight nb));
    AFloat (FCastInt (BrookNonBonded.getAtomStreamWidth nb));
    AFloat (FCastInt (BrookNonBonded.getJStreamWidth nb));
    AFloat (FCastInt (BrookNonBonded.getPartialForceStreamWidth nb));
    AFloat (FLit "138.935485f");
    dummyParameters;
    AStream PositionStream;
    AStream NB_ChargeStream; AStream NB_OuterVdwStream;
    AStream NB_InnerSigmaStream; AStream NB_InnerEpsilonStream;
    AStream NB_ExclusionStream;
    AStream (NB_ForceStreams 0); AStream (NB_ForceStreams 1);
    AStream (NB_ForceStreams 2); AStream (NB_ForceStreams 3) ].

Definition kbonded_args (b : BrookBonded.t) : list Arg :=
  [ AFloat (FCastProduct (BrookBonded.getLJ_14Scale b)
                         (BrookBonded.getCoulombFactor b));
    AFloat (FCastInt (BrookBonded.getBondedForceStreamWidth b 0));
    dummyParameters;
    AStream PositionStream;
    AStream B_ChargeStream; AStream B_AtomIndicesStream;
    AStream (B_ParameterStreams 0); AStream (B_ParameterStreams 1);
    AStream (B_ParameterStreams 2); AStream (B_ParameterStreams 3);
    AStream (B_ParameterStreams 4);
    AStream (B_ForceStreams 0); AStream (B_ForceStreams 1);
    AStream (B_ForceStreams 2); AStream (B_ForceStreams 3) ].

(** Everything [executeForces] launches before it looks at the K count. *)
Definition evaluation (b : BrookBonded.t) (nb : BrookNonBonded.t) : list Event :=
  [ Launch knbforce_CDLJ4 (knbforce_args nb);
    Launch kMergeFloat3_4_nobranch (merge_args nb);
    Launch kbonded_CDLJ (kbonded_args b) ].

(** ** Example states *)

Module Examples.

Definition platform : Platform := mkPlatform true (Some 1%nat).

Definition nonBonded : BrookNonBonded.t :=
  BrookNonBonded.mk 4 4 1 1 4 4 4 1 "nonbonded".

(** A bonded delegate whose K slot has [k] inverse-map streams. *)
Definition bonded (k : Z) : BrookBonded.t :=
  BrookBonded.mk (Some 1%nat) double_zero double_zero 8
                 (fun role => if decide (role = K_Stream) then k else 3)
                 (fun _ => 8) "bonded".

(** An initialized kernel: object 0 is its [BrookBonded], object 1 its
    [BrookNonBonded]. *)
Definition state (k : Z) : State :=
  mkState (mkKernel 4 (Some 0%nat) (Some 1%nat) (Some 1%nat) platform)
          {[ 0%nat := bonded k ]} {[ 1%nat := nonBonded ]} 2%nat.

End Examples.

(** What the unsupported branch writes to the delegate's log. *)
Definition not_handled_log (b : BrookBonded.t) : list Event :=
  match BrookBonded.getLog b with
  | Some _ =>
      [ Fprintf (BrookBonded.getLog b) "%s nkmaps=%d -- not handled."
                [ PString methodName_executeForces; PInt (K_count b) ];
        Fflush (BrookBonded.getLog b) ]
  | None => []
  end.

(** The state a method call leaves behind, when it leaves one. *)
Definition final_state {A} (r : Result A) : option State :=
  match r with
  | Ok _ s => Some s
  | Thrown _ s => Some s
  | Undefined => None
  end.

(** ** Vocabulary of the statements about [initialize] *)

Definition delete_opt {A} (p : option ptr) (m : gmap ptr A) : gmap ptr A :=
  match p with
  | Some a => delete a m
  | None => m
  end.

Definition delete_event (c : DelegateClass) (p : option ptr) : list Event :=
  match p with
  | Some a => [Delete c a]
  | None => []
  end.

Definition echo (log : option FILE) (format contents : string) : list Event :=
  match log with
  | Some _ =>
      [ Fprintf log format [ PString methodName_initialize; PString contents ];
        Fflush log ]
  | None => []
  end.

(** The kernel's delegate pointers are null or lead to live objects. *)
Definition pointers_live (s : State) : Prop :=
  match _brookBonded (self s) with
  | Some p => is_Some (bondedObjects s !! p)
  | None => True
  end /\
  match _brookNonBonded (self s) with
  | Some p => is_Some (nonBondedObjects s !! p)
  | None => True
  end.

(** The state in which a constructed kernel starts. *)
Definition start (k : Kernel) : State := mkState k ∅ ∅ 0%nat.

Section InitializeVocabulary.

Context {methods : DelegateMethods}.

Definition atom_count (a : InitializeArgs) : Z :=
  Z.of_nat (length (nonbondedParameters a)).

Definition bonded_setup_call (a : InitializeArgs) (platform : Platform)
  : BondedSetupCall :=
  {| bs_numberOfAtoms := atom_count a;
     bs_bondIndices := bondIndices a;
     bs_bondParameters := bondParameters a;
     bs_angleIndices := angleIndices a;
     bs_angleParameters := angleParameters a;
     bs_periodicTorsionIndices := periodicTorsionIndices a;
     bs_periodicTorsionParameters := periodicTorsionParameters a;
     bs_rbTorsionIndices := rbTorsionIndices a;
     bs_rbTorsionParameters := rbTorsionParameters a;
     bs_bonded14Indices := bonded14Indices a;
     bs_nonbondedParameters := nonbondedParameters a;
     bs_lj14Scale := lj14Scale a;
     bs_coulomb14Scale := coulomb14Scale a;
     bs_platform := platform |}.

Definition nonbonded_setup_call (a : InitializeArgs) (platform : Platform)
  : NonBondedSetupCall :=
  {| ns_numberOfAtoms := atom_count a;
     ns_nonbondedParameters := nonbondedParameters a;
     ns_exclusions := exclusions a;
     ns_platform := platform |}.

(** The delegates a call of [initialize] builds. *)
Definition built_bonded (a : InitializeArgs) (log : option FILE)
           (platform : Platform) : BrookBonded.t :=
  BrookBonded_setup (bonded_setup_call a platform)
                    (BrookBonded_setLog log BrookBonded_new).

Definition built_nonbonded (a : InitializeArgs) (log : option FILE)
           (platform : Platform) : BrookNonBonded.t :=
  BrookNonBonded_setup (nonbonded_setup_call a platform)
                       (BrookNonBonded_setLog log BrookNonBonded_new).

(** The state [initialize a] leaves when called in state [s]. *)
Definition rebuilt (a : InitializeArgs) (s : State) : State :=
  let k := self s in
  let pb := nextObject s in
  let pnb := S (nextObject s) in
  mkState
    (mkKernel (atom_count a) (Some pb) (Some pnb) (_log k) (getPlatform k))
    (<[pb := built_bonded a (_log k) (getPlatform k)]>
       (delete_opt (_brookBonded k) (bondedObjects s)))
    (<[pnb := built_nonbonded a (_log k) (getPlatform k)]>
       (delete_opt (_brookNonBonded k) (nonBondedObjects s)))
    (S (S (nextObject s))).

(** The calls [initialize a] makes when called in state [s]. *)
Definition rebuild_trace (a : InitializeArgs) (s : State) : list Event :=
  let k := self s in
  let log := _log k in
  let pb := nextObject s in
  let pnb := S (nextObject s) in
  delete_event ClassBrookBonded (_brookBonded k) ++
  [ New ClassBrookBonded pb;
    SetLog ClassBrookBonded pb log;
    BondedSetup pb (bonded_setup_call a (getPlatform k)) ] ++
  echo log "%s brookBonded::contents\n%s"
       (BrookBonded.getContentsString (built_bonded a log (getPlatform k))) ++
  delete_event ClassBrookNonBonded (_brookNonBonded k) ++
  [ New ClassBrookNonBonded pnb;
    SetLog ClassBrookNonBonded pnb log;
    NonBondedSetup pnb (nonbonded_setup_call a (getPlatform k)) ] ++
  echo log "%s brookNonBonded::contents\n%s"
       (BrookNonBonded.getContentsString
          (built_nonbonded a log (getPlatform k))).

End InitializeVocabulary.

Definition is_bonded_setup (e : Event) : bool :=
  match e with BondedSetup _ _ => true | _ => false end.

Definition is_nonbonded_setup (e : Event) : bool :=
  match e with NonBondedSetup _ _ => true | _ => false end.

Module InitializeExamples.

(** Stand-ins for the delegates' methods: [setup] keeps what it is given. *)
Definition stubs : DelegateMethods :=
  {| BrookBonded_new :=
       BrookBonded.mk None double_zero double_zero 0 (fun _ => 0) (fun _ => 0) "";
     BrookBonded_setLog := fun log b =>
       BrookBonded.mk log (BrookBonded.getLJ_14Scale b)
         (BrookBonded.getCoulombFactor b)
         (BrookBonded.getInverseMapStreamWidth b)
         (BrookBonded.getInverseMapStreamCount b)
         (BrookBonded.getBondedForceStreamWidth b)
         (BrookBonded.getContentsString b);
     BrookBonded_setup := fun call b =>
       BrookBonded.mk (BrookBonded.getLog b) (bs_lj14Scale call)
         (bs_coulomb14Scale call) (bs_numberOfAtoms call)
         (fun _ => Z.of_nat (length (bs_bondIndices call)))
         (fun _ => bs_numberOfAtoms call) "bonded";
     BrookNonBonded_new := BrookNonBonded.mk 0 0 0 0 0 0 0 0 "";
     BrookNonBonded_setLog := fun _ nb => nb;
     BrookNonBonded_setup := fun call _ =>
       BrookNonBonded.mk (ns_numberOfAtoms call) (ns_numberOfAtoms call) 1 1
         (ns_numberOfAtoms call) (ns_numberOfAtoms call)
         (ns_numberOfAtoms call) 1 "nonbonded" |}.

Definition one : double := S754_finite false 1 0.

(** Two atoms and one bond. *)
Definition args1 : InitializeArgs :=
  mkInitializeArgs [[0; 1]] [[one; one]] [] [] [] [] [] [] [] one one
    [∅; ∅] [[one; one; one]; [one; one; one]] 0 one [one; one; one].

(** Three atoms, two bonds and an angle. *)
Definition args2 : InitializeArgs :=
  mkInitializeArgs [[0; 1]; [1; 2]] [[one; one]; [one; one]]
    [[0; 1; 2]] [[one; one]] [] [] [] [] [] one one
    [∅; ∅; ∅] [[one; one; one]; [one; one; one]; [one; one; one]]
    1 one [one; one; one].

Definition kernel : Kernel :=
  mkKernel 0 None None (Some 1%nat) (mkPlatform true (Some 1%nat)).

Definition once : State := @rebuilt stubs args1 (start kernel).
Definition twice : State := @rebuilt stubs args2 once.

End InitializeExamples.

(** Two method calls leave states in which [executeForces] and
    [executeEnergy] do the same. *)
Definition same_afterwards (r r' : list Event * Result unit) : Prop :=
  match final_state (snd r), final_state (snd r') with
  | Some s1, Some s1' =>
      executeForces s1 = executeForces s1' /\
      forall positions, executeEnergy positions s1 = executeEnergy positions s1'
  | None, None => True
  | _, _ => False
  end.

(** ** Further vocabulary *)

(** How a method call ended, without the state it left: returned, threw
    (with the message), or was undefined. *)
Definition outcome {A} (r : Result A) : option (option string) :=
  match r with
  | Ok _ _ => Some None
  | Thrown what _ => Some (Some what)
  | Undefined => None
  end.

(** The streams [executeForces] uses as its working storage and result:
    the partial force streams of the two delegates and the force stream. *)
Definition is_scratch (r : StreamRef) : bool :=
  match r with
  | ForceStream => true
  | NB_ForceStreams i => (i <? 4)%nat
  | B_ForceStreams i => (i <? 4)%nat
  | _ => false
  end.

Definition is_delete (e : Event) : bool :=
  match e with Delete _ _ => true | _ => false end.

Definition is_new (e : Event) : bool :=
  match e with New _ _ => true | _ => false end.

(** Output to a log: [fprintf], [fflush], a stream's [printToFile]. *)
Definition is_log_output (e : Event) : bool :=
  match e with
  | Fprintf _ _ _ | Fflush _ | PrintToFile _ _ => true
  | _ => false
  end.

(** The live delegate objects are exactly those the kernel points to. *)
Definition owns_all_objects (s : State) : Prop :=
  dom (bondedObjects s) =
    match _brookBonded (self s) with Some p => {[p]} | None => ∅ end /\
  dom (nonBondedObjects s) =
    match _brookNonBonded (self s) with Some p => {[p]} | None => ∅ end.

Definition is_set_log (e : Event) : bool :=
  match e with SetLog _ _ _ => true | _ => false end.

(** Reading the count back from its decimal rendering. *)
Definition parse_decimal (text : string) : option Z :=
  option_map Z.of_int (NilZero.int_of_string text).

(** The partial force streams of the two delegates. *)
Definition is_partial_force (r : StreamRef) : bool :=
  match r with
  | NB_ForceStreams i => (i <? 4)%nat
  | B_ForceStreams i => (i <? 4)%nat
  | _ => false
  end.

(** ** Launches that may update a stream in place *)

Section InPlace.

(** Contents of a stream. *)
Variable V : Type.

(** Modelled from the spec: the kernels are not part of this file, and the
    spec calls each write to the output force array a read-modify-write
    ("add into the atom's existing output force entry", "accumulating
    writes").  Here a kernel is therefore given, besides its scalar
    arguments and the contents of the streams in input position, the
    contents its output streams hold when it is launched. *)
Variable device : KernelName -> list Arg -> list V -> list V -> nat -> V.

Definition launch_in_place (k : KernelName) (args : list Arg)
           (m : StreamRef -> V) : StreamRef -> V :=
  let inputs := map m (reads k args) in
  let held := map m (writes k args) in
  write_outputs V 0 (writes k args) (device k (scalar_args args) inputs held) m.

Definition step_in_place (m : StreamRef -> V) (e : Event) : StreamRef -> V :=
  match e with
  | Launch k args => launch_in_place k args m
  | _ => m
  end.

Definition run_events_in_place (t : list Event) (m : StreamRef -> V)
  : StreamRef -> V :=
  fold_left step_in_place t m.

(** The streams after an [executeForces] call made in state [s]. *)
Definition streams_after_executeForces_in_place (s : State)
           (m : StreamRef -> V) : StreamRef -> V :=
  run_events_in_place (fst (executeForces s)) m.

(** The two evaluators produce their partial force buffers afresh: what
    the buffers held before plays no part. *)
Definition evaluators_write_afresh : Prop :=
  forall k scalars inputs held held' j,
    k = knbforce_CDLJ4 \/ k = kbonded_CDLJ ->
    device k scalars inputs held j = device k scalars inputs held' j.

End InPlace.

Arguments launch_in_place {V} device k args m.
Arguments run_events_in_place {V} device t m.
Arguments streams_after_executeForces_in_place {V} device s m.
Arguments evaluators_write_afresh {V} device.

(** ** The kernels, as the spec describes them *)

Section SpecKernels.

(** A force (a 3-vector of floats on the device), its addition and the
    zero force. *)
Variable F : Type.
Variable add : F -> F -> F.
Variable zero : F.

(** Modelled from the spec: what a stream holds.  A force array or a
    partial force buffer holds a force per atom or per lane; an inverse-map
    stream holds, per atom, a lane index or the sentinel ([None]); the
    layout of the other streams is not described. *)
Inductive StreamData :=
| ForceData (f : nat -> F)
| IndexData (ix : nat -> option nat)
| NoData.

Definition force_at (d : StreamData) (i : nat) : F :=
  match d with
  | ForceData f => f i
  | _ => zero
  end.

Definition index_at (d : StreamData) (i : nat) : option nat :=
  match d with
  | IndexData ix => ix i
  | _ => None
  end.

(** Modelled from the spec: "sum the partial forces indicated by [the
    role's] valid map entries" for atom [i]; a sentinel entry indicates
    none. *)
Fixpoint role_sum (maps : list StreamData) (buffer : StreamData) (i : nat) : F :=
  match maps with
  | [] => zero
  | map_j :: rest =>
      match index_at map_j i with
      | Some lane => add (force_at buffer lane) (role_sum rest buffer i)
      | None => role_sum rest buffer i
      end
  end.

(** Modelled from the spec: the gather of a role pair.  Its input streams
    are role A's [nA] maps and partial force buffer, role B's [nB] maps and
    buffer, and the output force array; "for every atom, sum the partial
    forces indicated by roleA's valid map entries, sum the partial forces
    indicated by roleB's valid map entries, add both sums into the atom's
    existing output force entry". *)
Definition gather (nA nB : nat) (inputs : list StreamData) : StreamData :=
  let mapsA := take nA inputs in
  let bufferA := nth nA inputs NoData in
  let mapsB := take nB (drop (S nA) inputs) in
  let bufferB := nth (S nA + nB) inputs NoData in
  let forces := nth (S (S nA) + nB) inputs NoData in
  ForceData (fun i =>
    add (force_at forces i)
        (add (role_sum mapsA bufferA i) (role_sum mapsB bufferB i))).

(** What the two evaluators compute for lane [lane] of their [j]-th partial
    force buffer, and the nonbonded force of an atom that the merge makes
    of the four nonbonded partial force streams.  The spec leaves the force
    laws and the layout of these streams to the kernels, so they are
    parameters. *)
Variable evaluate : KernelName -> list Arg -> list StreamData -> nat -> nat -> F.
Variable nonbonded_total : list Arg -> list StreamData -> nat -> F.

(** Modelled from the spec: the six kernels.  An evaluator produces its
    partial force buffers afresh; the merge adds the nonbonded force of
    each atom to what the output force array holds (the first of the
    "three sequential accumulating writes"); a gather adds its two role
    sums to the force array it reads. *)
Definition spec_device (k : KernelName) (scalars : list Arg)
           (inputs held : list StreamData) (j : nat) : StreamData :=
  match k with
  | knbforce_CDLJ4 | kbonded_CDLJ => ForceData (evaluate k scalars inputs j)
  | kMergeFloat3_4_nobranch =>
      ForceData (fun i =>
        add (force_at (nth 0 held NoData) i) (nonbonded_total scalars inputs i))
  | kinvmap_gather3_4 => gather 3 4 inputs
  | kinvmap_gather3_5 => gather 3 5 inputs
  | kinvmap_gather5_2 => gather 5 2 inputs
  end.

End SpecKernels.

Arguments ForceData {F} f.
Arguments IndexData {F} ix.
Arguments NoData {F}.
Arguments force_at {F} zero d i.
Arguments index_at {F} d i.
Arguments role_sum {F} add zero maps buffer i.
Arguments gather {F} add zero nA nB inputs.
Arguments spec_device {F} add zero evaluate nonbonded_total k scalars inputs held j.

Module AccumulationExamples.

(** Integer forces.  Lane [l] of the [j]-th buffer of an evaluator holds
    [10 * j + l + 1]; every atom's nonbonded force is 100. *)
Definition evaluate (k : KernelName) (scalars : list Arg)
           (inputs : list (StreamData Z)) (j lane : nat) : Z :=
  10 * Z.of_nat j + Z.of_nat lane + 1.

Definition nonbonded_total (scalars : list Arg)
           (inputs : list (StreamData Z)) (i : nat) : Z := 100.

(** Atom 0 is in lane 0 as I and in lane 1 as J; all its other map entries
    are the sentinel.  No other atom is in any lane. *)
Definition streams (r : StreamRef) : StreamData Z :=
  match r with
  | B_InverseStreamMaps 0 0 =>
      IndexData (fun i => if decide (i = 0%nat) then Some 0%nat else None)
  | B_InverseStreamMaps 1 2 =>
      IndexData (fun i => if decide (i = 0%nat) then Some 1%nat else None)
  | B_InverseStreamMaps _ _ => IndexData (fun _ => None)
  | ForceStream => ForceData (fun _ => 0)
  | _ => NoData
  end.

(** The forces on entry: atom [i] holds [1000 * (i + 1)]. *)
Definition entry (i : nat) : Z := 1000 * (Z.of_nat i + 1).

End AccumulationExamples.

(** ** Theorems about [executeForces] *)

Ltac enter_executeForces s Hb Hnb :=
  destruct s as [[n pb pnb lg pl] bo nbo nx];
  unfold bonded_of, nonbonded_of in Hb, Hnb; simpl in Hb, Hnb;
  destruct pb as [pb|]; [|discriminate Hb];
  destruct pnb as [pnb|]; [|discriminate Hnb];
  unfold executeForces, bind, this, deref_nonbonded, deref_bonded; simpl;
  rewrite Hnb; simpl; rewrite Hb; simpl.

Lemma executeForces_defined s t r :
  executeForces s = (t, r) -> r <> Undefined ->
  exists b nb, bonded_of s = Some b /\ nonbonded_of s = Some nb.
Proof.
  destruct s as [[n pb pnb lg pl] bo nbo nx].
  unfold bonded_of, nonbonded_of, executeForces, bind, this,
    deref_nonbonded, deref_bonded; simpl.
  destruct pnb as [pnb|]; [|intros [= <- <-]; congruence].
  destruct (nbo !! pnb) as [nb|] eqn:Hnb; [|intros [= <- <-]; congruence].
  simpl. destruct pb as [pb|]; [|intros [= <- <-]; congruence].
  destruct (bo !! pb) as [b|] eqn:Hb; [|intros [= <- <-]; congruence].
  intros _ _. by exists b, nb.
Qed.

(** The whole of an [executeForces] call on an initialized kernel: the
    evaluation, then the dispatch on the K count. *)
Lemma executeForces_initialized s b nb :
  bonded_of s = Some b -> nonbonded_of s = Some nb ->
  executeForces s =
    if K_count b <=? 4 then
      (evaluation b nb ++ [ Launch kinvmap_gather3_4 (gather3_4_args b);
                            Launch kinvmap_gather5_2 (gather5_2_args b) ], Ok tt s)
    else if K_count b =? 5 then
      (evaluation b nb ++ [ Launch kinvmap_gather3_5 (gather3_5_args b);
                            Launch kinvmap_gather5_2 (gather5_2_args b) ], Ok tt s)
    else
      (evaluation b nb ++ not_handled_log b, Thrown (not_handled (K_count b)) s).
Proof.
  intros Hb Hnb. enter_executeForces s Hb Hnb.
  unfold K_count, not_handled_log.
  destruct (_ <=? 4); [reflexivity|].
  destruct (_ =? 5); [reflexivity|].
  destruct (BrookBonded.getLog b); reflexivity.
Qed.

Lemma executeForces_returns s b nb :
  bonded_of s = Some b -> nonbonded_of s = Some nb ->
  K_count b <= 4 \/ K_count b = 5 ->
  exists t, executeForces s = (t, Ok tt s).
Proof.
  intros Hb Hnb HK. rewrite (executeForces_initialized s b nb Hb Hnb).
  destruct (Z.leb_spec (K_count b) 4); [eauto|].
  destruct (Z.eqb_spec (K_count b) 5); [eauto|lia].
Qed.

(** Inversion of a call that returns. *)
Lemma executeForces_Ok_inv s t s' :
  executeForces s = (t, Ok tt s') ->
  exists b nb,
    bonded_of s = Some b /\ nonbonded_of s = Some nb /\ s' = s /\
    ((K_count b <= 4 /\
      t = evaluation b nb ++ [ Launch kinvmap_gather3_4 (gather3_4_args b);
                               Launch kinvmap_gather5_2 (gather5_2_args b) ]) \/
     (K_count b = 5 /\
      t = evaluation b nb ++ [ Launch kinvmap_gather3_5 (gather3_5_args b);
                               Launch kinvmap_gather5_2 (gather5_2_args b) ])).
Proof.
  intros H.
  destruct (executeForces_defined s t _ H) as (b & nb & Hb & Hnb); [discriminate|].
  exists b, nb. rewrite (executeForces_initialized s b nb Hb Hnb) in H.
  destruct (Z.leb_spec (K_count b) 4).
  - injection H as <- <-. auto 6.
  - destruct (Z.eqb_spec (K_count b) 5); [|discriminate].
    injection H as <- <-. auto 6.
Qed.

(** C1 (as amended): when the K count is neither at most 4 nor 5, the call
    throws the exception whose message carries the count.  By then the two
    evaluators and the nonbonded merge have been launched, and the merge
    is the one launch that has written the force stream; no gather of any
    kind is launched. *)
Theorem executeForces_unsupported_K_count s b nb :
  bonded_of s = Some b -> nonbonded_of s = Some nb ->
  ~ K_count b <= 4 -> K_count b <> 5 ->
  exists t,
    executeForces s =
      (t, Thrown (methodName_executeForces +:+ "K-maps=" +:+
                  decimal (K_count b) +:+ " not handled.") s) /\
    launches t = [knbforce_CDLJ4; kMergeFloat3_4_nobranch; kbonded_CDLJ] /\
    List.filter is_gather t = [] /\
    List.filter writes_forces t =
      [Launch kMergeFloat3_4_nobranch (merge_args nb)].
Proof.
  intros Hb Hnb H4 H5. rewrite (executeForces_initialized s b nb Hb Hnb).
  destruct (Z.leb_spec (K_count b) 4); [lia|].
  destruct (Z.eqb_spec (K_count b) 5); [lia|].
  eexists. split; [reflexivity|].
  unfold not_handled_log. destruct (BrookBonded.getLog b); repeat split.
Qed.

Lemma executeForces_unsupported_K_count_witness :
  exists t,
    executeForces (Examples.state 6) =
      (t, Thrown "BrookCalcStandardMMForceFieldKernel::executeForcesK-maps=6 not handled."
                 (Examples.state 6)) /\
    launches t = [knbforce_CDLJ4; kMergeFloat3_4_nobranch; kbonded_CDLJ] /\
    List.filter is_gather t = [] /\
    List.filter writes_forces t =
      [Launch kMergeFloat3_4_nobranch (merge_args Examples.nonBonded)].
Proof.
  apply (executeForces_unsupported_K_count (Examples.state 6)
           (Examples.bonded 6) Examples.nonBonded).
  - reflexivity.
  - reflexivity.
  - vm_compute. intros H. apply H. reflexivity.
  - vm_compute. discriminate.
Defined.

(** C1 (as stated) fails: with a K count of 6 the call throws, but a launch
    that writes the force stream has been made before the throw. *)
Lemma executeForces_K6_throws_after_force_write :
  ~ K_count (Examples.bonded 6) <= 4 /\ K_count (Examples.bonded 6) <> 5 /\
  exists t what s',
    executeForces (Examples.state 6) = (t, Thrown what s') /\
    existsb writes_forces t = true.
Proof.
  split; [vm_compute; intros H; apply H; reflexivity|].
  split; [vm_compute; discriminate|].
  eexists _, _, _. split; [vm_compute; reflexivity|]. vm_compute. reflexivity.
Qed.

(** C2: in a call that returns, the K count selects the (I,K) gather:
    at most 4 gives [kinvmap_gather3_4] (three I maps, four K maps), 5
    gives [kinvmap_gather3_5] (three I maps, five K maps); the trace has
    exactly one (I,K) gather. *)
Theorem executeForces_selects_IK_gather s t s' :
  executeForces s = (t, Ok tt s') ->
  exists b,
    bonded_of s = Some b /\
    ((K_count b <= 4 /\
      List.filter is_IK_gather t =
        [Launch kinvmap_gather3_4 (gather3_4_args b)]) \/
     (K_count b = 5 /\
      List.filter is_IK_gather t =
        [Launch kinvmap_gather3_5 (gather3_5_args b)])).
Proof.
  intros H.
  destruct (executeForces_Ok_inv s t s' H) as (b & nb & Hb & _ & _ & Ht).
  exists b. split; [done|].
  destruct Ht as [[HK ->]|[HK ->]]; [left|right]; split; done.
Qed.

Lemma executeForces_selects_IK_gather_witness :
  exists b,
    bonded_of (Examples.state 5) = Some b /\
    ((K_count b <= 4 /\
      List.filter is_IK_gather (fst (executeForces (Examples.state 5))) =
        [Launch kinvmap_gather3_4 (gather3_4_args b)]) \/
     (K_count b = 5 /\
      List.filter is_IK_gather (fst (executeForces (Examples.state 5))) =
        [Launch kinvmap_gather3_5 (gather3_5_args b)])).
Proof.
  apply (executeForces_selects_IK_gather (Examples.state 5) _ (Examples.state 5)).
  vm_compute. reflexivity.
Defined.

(** C3: [executeEnergy] returns the double [0.0] for every argument, in
    every state; it launches nothing and changes nothing. *)
Theorem executeEnergy_is_zero (positions : StreamRef) (s : State) :
  executeEnergy positions s = ([], Ok (S754_zero false) s).
Proof. reflexivity. Qed.

(** C5: in a call that returns, exactly two gathers are launched, and they
    are the last two launches: first the (I,K) gather, which reads the
    partial forces of the I and K slots, then the (J,L) gather, which reads
    those of the J and L slots.  Each reads the force stream and writes
    the force stream, and nothing else. *)
Theorem executeForces_gather_order s t s' :
  executeForces s = (t, Ok tt s') ->
  exists pre ik jl,
    t = pre ++ [ik; jl] /\
    List.filter is_gather pre = [] /\
    is_IK_gather ik = true /\ is_JL_gather jl = true /\
    B_ForceStreams I_Stream ∈ event_reads ik /\
    B_ForceStreams K_Stream ∈ event_reads ik /\
    B_ForceStreams J_Stream ∈ event_reads jl /\
    B_ForceStreams L_Stream ∈ event_reads jl /\
    ForceStream ∈ event_reads ik /\ event_writes ik = [ForceStream] /\
    ForceStream ∈ event_reads jl /\ event_writes jl = [ForceStream].
Proof.
  intros H.
  destruct (executeForces_Ok_inv s t s' H) as (b & nb & _ & _ & _ & Ht).
  destruct Ht as [[_ ->]|[_ ->]]; eexists _, _, _;
    (split; [reflexivity|]); repeat split; vm_compute; set_solver.
Qed.

Lemma executeForces_gather_order_witness :
  exists pre ik jl,
    fst (executeForces (Examples.state 4)) = pre ++ [ik; jl] /\
    List.filter is_gather pre = [] /\
    is_IK_gather ik = true /\ is_JL_gather jl = true /\
    B_ForceStreams I_Stream ∈ event_reads ik /\
    B_ForceStreams K_Stream ∈ event_reads ik /\
    B_ForceStreams J_Stream ∈ event_reads jl /\
    B_ForceStreams L_Stream ∈ event_reads jl /\
    ForceStream ∈ event_reads ik /\ event_writes ik = [ForceStream] /\
    ForceStream ∈ event_reads jl /\ event_writes jl = [ForceStream].
Proof.
  apply (executeForces_gather_order (Examples.state 4) _ (Examples.state 4)).
  vm_compute. reflexivity.
Defined.

(** C6: on an initialized kernel, every call that gets past the (I,K)
    dispatch (K count at most 5) returns, and the last thing it does is
    launch [kinvmap_gather5_2] on the five J maps, the J partial forces,
    the two L maps, the L partial forces and the force stream (read and
    written); it launches no other (J,L) gather.  The streams are the same
    for every delegate: no count of the J or L slot is consulted.  A call
    that throws at the dispatch (K count 6 or more) launches no (J,L)
    gather. *)
Theorem executeForces_JL_gather_fixed s b nb :
  bonded_of s = Some b -> nonbonded_of s = Some nb ->
  (K_count b <= 5 ->
   exists pre,
     executeForces s =
       (pre ++ [Launch kinvmap_gather5_2 (gather5_2_args b)], Ok tt s) /\
     List.filter is_JL_gather pre = []) /\
  (6 <= K_count b ->
   List.filter is_JL_gather (fst (executeForces s)) = []) /\
  stream_args (gather5_2_args b) =
    [ B_InverseStreamMaps J_Stream 0; B_InverseStreamMaps J_Stream 1;
      B_InverseStreamMaps J_Stream 2; B_InverseStreamMaps J_Stream 3;
      B_InverseStreamMaps J_Stream 4; B_ForceStreams J_Stream;
      B_InverseStreamMaps L_Stream 0; B_InverseStreamMaps L_Stream 1;
      B_ForceStreams L_Stream; ForceStream; ForceStream ].
Proof.
  intros Hb Hnb. rewrite (executeForces_initialized s b nb Hb Hnb).
  split; [|split; [|reflexivity]].
  - intros HK. destruct (Z.leb_spec (K_count b) 4).
    + exists (evaluation b nb ++ [Launch kinvmap_gather3_4 (gather3_4_args b)]).
      split; [|reflexivity]. by rewrite <- app_assoc.
    + destruct (Z.eqb_spec (K_count b) 5); [|lia].
      exists (evaluation b nb ++ [Launch kinvmap_gather3_5 (gather3_5_args b)]).
      split; [|reflexivity]. by rewrite <- app_assoc.
  - intros HK. destruct (Z.leb_spec (K_count b) 4); [lia|].
    destruct (Z.eqb_spec (K_count b) 5); [lia|].
    unfold not_handled_log. destruct (BrookBonded.getLog b); reflexivity.
Qed.

Lemma executeForces_JL_gather_fixed_witness :
  exists pre,
    executeForces (Examples.state 5) =
      (pre ++ [Launch kinvmap_gather5_2 (gather5_2_args (Examples.bonded 5))],
       Ok tt (Examples.state 5)) /\
    List.filter is_JL_gather pre = [].
Proof.
  apply (proj1 (executeForces_JL_gather_fixed (Examples.state 5)
                  (Examples.bonded 5) Examples.nonBonded eq_refl eq_refl)).
  vm_compute. discriminate.
Defined.

(** [executeForces] changes neither the kernel nor its delegates. *)
Lemma executeForces_keeps_state s :
  match final_state (snd (executeForces s)) with
  | Some s' => s' = s
  | None => True
  end.
Proof.
  destruct s as [[n pb pnb lg pl] bo nbo nx].
  unfold executeForces, bind, this, deref_nonbonded, deref_bonded; simpl.
  destruct pnb as [pnb|]; [|done].
  destruct (nbo !! pnb) as [nb|]; [|done].
  simpl. destruct pb as [pb|]; [|done].
  destruct (bo !! pb) as [b|]; [|done].
  simpl. destruct (_ <=? 4); [done|]. destruct (_ =? 5); [done|].
  destruct (BrookBonded.getLog b); done.
Qed.

(** C8: for every interpretation of the kernels as functions of their
    arguments, running [executeForces] a second time on the same kernel,
    with the same positions and with the force stream put back to the same
    baseline, leaves the same forces as the first run did.  The first run
    leaves the kernel and its delegates as they were, so the second run is
    made in the same state. *)
Theorem executeForces_deterministic
    (V : Type) (device : KernelName -> list Arg -> list V -> nat -> V)
    (s : State) (m : StreamRef -> V) (positions baseline : V) :
  let reset m := write ForceStream baseline (write PositionStream positions m) in
  let m1 := streams_after_executeForces device s (reset m) in
  let m2 := streams_after_executeForces device s (reset m1) in
  match final_state (snd (executeForces s)) with
  | Some s' => s' = s
  | None => True
  end /\
  m2 ForceStream = m1 ForceStream.
Proof.
  intros reset m1 m2. split; [apply executeForces_keeps_state|].
  subst reset m1 m2. unfold streams_after_executeForces.
  destruct s as [[n pb pnb lg pl] bo nbo nx].
  unfold executeForces, bind, this, deref_nonbonded, deref_bonded; simpl.
  destruct pnb as [pnb|]; [|reflexivity].
  destruct (nbo !! pnb) as [nb|]; [|reflexivity].
  simpl. destruct pb as [pb|]; [|reflexivity].
  destruct (bo !! pb) as [b|]; [|reflexivity].
  simpl. destruct (_ <=? 4); [reflexivity|].
  destruct (_ =? 5); [reflexivity|].
  destruct (BrookBonded.getLog b); reflexivity.
Qed.

Lemma role_sum_without_sentinels {F} (add : F -> F -> F) (zero : F)
    (maps : list (StreamData F)) (buffer : StreamData F) (i : nat) :
  role_sum add zero maps buffer i =
  role_sum add zero
    (List.filter (fun d => bool_decide (is_Some (index_at d i))) maps) buffer i.
Proof.
  induction maps as [|d maps IH]; [done|].
  cbn [role_sum List.filter].
  destruct (index_at d i) as [lane|] eqn:Hd.
  - rewrite bool_decide_eq_true_2 by eauto.
    cbn [role_sum]. by rewrite Hd, IH.
  - rewrite bool_decide_eq_false_2 by (by intros [? [=]]). exact IH.
Qed.

Lemma role_sum_all_sentinels {F} (add : F -> F -> F) (zero : F)
    (maps : list (StreamData F)) (buffer : StreamData F) (i : nat) :
  (forall d, In d maps -> index_at d i = None) ->
  role_sum add zero maps buffer i = zero.
Proof.
  induction maps as [|d maps IH]; simpl; intros Hall; [done|].
  rewrite (Hall d) by auto. apply IH. intros d' Hd'. apply Hall. auto.
Qed.

(** C4: with the kernels as the spec describes them, [executeForces]
    changes the force stream by accumulation only.  For every atom the
    force after the call is the force on entry, plus the atom's nonbonded
    force, plus the I and K sums, plus the J and L sums, each sum taken over
    the partial forces evaluated in this call; when the call throws at the
    dispatch it is the force on entry plus the nonbonded force.  In no case
    is the entry value dropped.  A sentinel map entry adds nothing: a role
    sum is the sum over the role's valid entries alone, and it is the zero
    force for an atom all of whose entries in that role are sentinels. *)
Theorem executeForces_accumulates
    (F : Type) (add : F -> F -> F) (zero : F)
    (evaluate : KernelName -> list Arg -> list (StreamData F) -> nat -> nat -> F)
    (nonbonded_total : list Arg -> list (StreamData F) -> nat -> F)
    (s : State) (b : BrookBonded.t) (nb : BrookNonBonded.t)
    (m : StreamRef -> StreamData F) (entry : nat -> F) (i : nat) :
  bonded_of s = Some b -> nonbonded_of s = Some nb ->
  let device := spec_device add zero evaluate nonbonded_total in
  let final :=
    streams_after_executeForces_in_place device s
      (write ForceStream (ForceData entry) m) in
  let fresh_nb j :=
    ForceData (evaluate knbforce_CDLJ4 (scalar_args (knbforce_args nb))
                 (map m (reads knbforce_CDLJ4 (knbforce_args nb))) j) in
  let fresh_b role :=
    ForceData (evaluate kbonded_CDLJ (scalar_args (kbonded_args b))
                 (map m (reads kbonded_CDLJ (kbonded_args b))) role) in
  let nonbonded :=
    nonbonded_total (scalar_args (merge_args nb))
      [fresh_nb 0%nat; fresh_nb 1%nat; fresh_nb 2%nat; fresh_nb 3%nat] i in
  let maps role n := map (fun j => m (B_InverseStreamMaps role j)) (seq 0 n) in
  let sum role n := role_sum add zero (maps role n) (fresh_b role) i in
  force_at zero (final ForceStream) i =
    (if K_count b <=? 4 then
       add (add (add (entry i) nonbonded)
                (add (sum I_Stream 3%nat) (sum K_Stream 4%nat)))
           (add (sum J_Stream 5%nat) (sum L_Stream 2%nat))
     else if K_count b =? 5 then
       add (add (add (entry i) nonbonded)
                (add (sum I_Stream 3%nat) (sum K_Stream 5%nat)))
           (add (sum J_Stream 5%nat) (sum L_Stream 2%nat))
     else add (entry i) nonbonded) /\
  (forall role n,
     sum role n =
     role_sum add zero
       (List.filter (fun d => bool_decide (is_Some (index_at d i)))
                    (maps role n))
       (fresh_b role) i) /\
  (forall role n,
     (forall j, (j < n)%nat -> index_at (m (B_InverseStreamMaps role j)) i = None) ->
     sum role n = zero).
Proof.
  intros Hb Hnb device final fresh_nb fresh_b nonbonded maps sum.
  split; [|split].
  - subst final. unfold streams_after_executeForces_in_place.
    rewrite (executeForces_initialized s b nb Hb Hnb).
    destruct (K_count b <=? 4); [reflexivity|].
    destruct (K_count b =? 5); [reflexivity|].
    unfold not_handled_log. destruct (BrookBonded.getLog b); reflexivity.
  - intros role n. apply role_sum_without_sentinels.
  - intros role n Hall. apply role_sum_all_sentinels.
    intros d Hd. subst maps. apply in_map_iff in Hd as (j & <- & Hj).
    apply in_seq in Hj. apply Hall. lia.
Qed.

Lemma executeForces_accumulates_witness :
  force_at 0
    (streams_after_executeForces_in_place
       (spec_device Z.add 0 AccumulationExamples.evaluate
          AccumulationExamples.nonbonded_total)
       (Examples.state 5)
       (write ForceStream (ForceData AccumulationExamples.entry)
          AccumulationExamples.streams)
       ForceStream) 0%nat = 1000 + 100 + (1 + 0) + (12 + 0).
Proof.
  exact (proj1 (executeForces_accumulates Z Z.add 0
                  AccumulationExamples.evaluate
                  AccumulationExamples.nonbonded_total
                  (Examples.state 5) (Examples.bonded 5) Examples.nonBonded
                  AccumulationExamples.streams AccumulationExamples.entry 0%nat
                  eq_refl eq_refl)).
Defined.


(** ** Theorems about [initialize] *)

Lemma initialize_spec `{DelegateMethods} (a : InitializeArgs) (s : State) :
  pointers_live s ->
  initialize a s = (rebuild_trace a s, Ok tt (rebuilt a s)).
Proof.
  destruct s as [[n pb pnb lg pl] bo nbo nx].
  intros [Hb Hnb]. simpl in Hb, Hnb.
  unfold initialize, rebuild_trace, rebuilt, built_bonded, built_nonbonded,
    bonded_setup_call, nonbonded_setup_call, atom_count.
  unfold bind, getLog, this, ret, set_numberOfAtoms, new_bonded, new_nonbonded,
    set_brookBonded, set_brookNonBonded, call_bonded, call_nonbonded,
    delete_bonded, delete_nonbonded, deref_bonded, deref_nonbonded, when, emit,
    echo, delete_event, delete_opt.
  destruct lg as [lg|];
    (destruct pb as [pb|]; [destruct Hb as [b0 Hb]|]);
    (destruct pnb as [pnb|]; [destruct Hnb as [nb0 Hnb]|]);
    repeat (progress (simpl; rewrite ?Hb, ?Hnb, ?lookup_insert_eq, ?insert_insert_eq));
    reflexivity.
Qed.

(** A call of [initialize] that returns was made with live (or null)
    delegate pointers, and is the call [initialize_spec] describes. *)
Lemma initialize_Ok_inv `{DelegateMethods} (a : InitializeArgs) s t u s' :
  initialize a s = (t, Ok u s') ->
  pointers_live s /\ t = rebuild_trace a s /\ s' = rebuilt a s.
Proof.
  intros Hrun.
  assert (Hlive : pointers_live s).
  { destruct s as [[n pb pnb lg pl] bo nbo nx]. unfold pointers_live. simpl.
    revert Hrun. unfold initialize.
    unfold bind, getLog, this, ret, set_numberOfAtoms, new_bonded,
      new_nonbonded, set_brookBonded, set_brookNonBonded, call_bonded,
      call_nonbonded, delete_bonded, delete_nonbonded, deref_bonded,
      deref_nonbonded, when, emit.
    destruct lg as [lg|];
      (destruct pb as [pb|]; [destruct (bo !! pb) as [b0|] eqn:Hb|]);
      (destruct pnb as [pnb|]; [destruct (nbo !! pnb) as [nb0|] eqn:Hnb|]);
      repeat (progress (simpl; rewrite ?Hb, ?Hnb, ?lookup_insert_eq,
                          ?insert_insert_eq));
      (discriminate || (intros _; split; eauto)). }
  split; [done|].
  rewrite (initialize_spec a s Hlive) in Hrun. by injection Hrun as <- <-.
Qed.

Lemma rebuilt_pointers_live `{DelegateMethods} (a : InitializeArgs) s :
  pointers_live (rebuilt a s).
Proof.
  unfold pointers_live, rebuilt. simpl. rewrite !lookup_insert_eq. eauto.
Qed.

Lemma start_pointers_live (platform : Platform) (junk : option FILE) (k : Kernel) :
  construct platform junk = Some k -> pointers_live (start k).
Proof.
  unfold construct. destruct (isBrookPlatform platform); [|discriminate].
  intros [= <-]. by split.
Qed.

(** C10: after a call of [initialize] that returns, [_numberOfAtoms] is the
    length of [nonbondedParameters]; the call makes one [BrookBonded::setup]
    and one [BrookNonBonded::setup], and each is given that length as its
    atom count.  No index of a bond, angle, torsion or 1-4 list enters it. *)
Theorem initialize_numberOfAtoms `{DelegateMethods}
    (a : InitializeArgs) (s : State) (t : list Event) (s' : State) :
  initialize a s = (t, Ok tt s') ->
  _numberOfAtoms (self s') = Z.of_nat (length (nonbondedParameters a)) /\
  (exists p call,
     List.filter is_bonded_setup t = [BondedSetup p call] /\
     bs_numberOfAtoms call = Z.of_nat (length (nonbondedParameters a))) /\
  (exists p call,
     List.filter is_nonbonded_setup t = [NonBondedSetup p call] /\
     ns_numberOfAtoms call = Z.of_nat (length (nonbondedParameters a))).
Proof.
  intros Hrun. apply initialize_Ok_inv in Hrun as (_ & -> & ->).
  split; [reflexivity|].
  unfold rebuild_trace, delete_event, echo.
  split; eexists _, _;
    (split; [destruct (_brookBonded (self s)), (_brookNonBonded (self s)),
               (_log (self s)); reflexivity | reflexivity]).
Qed.

Lemma initialize_numberOfAtoms_witness :
  _numberOfAtoms (self InitializeExamples.once) = 2 /\
  (exists p call,
     List.filter is_bonded_setup
       (fst (@initialize InitializeExamples.stubs InitializeExamples.args1
               (start InitializeExamples.kernel))) = [BondedSetup p call] /\
     bs_numberOfAtoms call = 2) /\
  (exists p call,
     List.filter is_nonbonded_setup
       (fst (@initialize InitializeExamples.stubs InitializeExamples.args1
               (start InitializeExamples.kernel))) = [NonBondedSetup p call] /\
     ns_numberOfAtoms call = 2).
Proof.
  apply (@initialize_numberOfAtoms InitializeExamples.stubs
           InitializeExamples.args1 (start InitializeExamples.kernel)
           _ InitializeExamples.once).
  vm_compute. reflexivity.
Defined.

(** C9: [nonbondedMethod], [nonbondedCutoff] and [periodicBoxSize] play no
    part in [initialize]: two calls whose arguments differ only there make
    the same calls, with the same arguments to both [setup]s, and leave the
    same kernel and the same delegates; [executeForces] and [executeEnergy]
    then do the same after either. *)
Theorem initialize_ignores_method_cutoff_box `{DelegateMethods}
    (bondIdx : list (list Z)) (bondPar : list (list double))
    (angleIdx : list (list Z)) (anglePar : list (list double))
    (ptIdx : list (list Z)) (ptPar : list (list double))
    (rbIdx : list (list Z)) (rbPar : list (list double))
    (b14 : list (list Z)) (lj14 coulomb14 : double)
    (excl : list (gset Z)) (nbPar : list (list double))
    (method method' : Z) (cutoff cutoff' : double) (box box' : list double)
    (s : State) :
  let r := initialize
             (mkInitializeArgs bondIdx bondPar angleIdx anglePar ptIdx ptPar
                rbIdx rbPar b14 lj14 coulomb14 excl nbPar method cutoff box) s in
  let r' := initialize
              (mkInitializeArgs bondIdx bondPar angleIdx anglePar ptIdx ptPar
                 rbIdx rbPar b14 lj14 coulomb14 excl nbPar method' cutoff' box') s in
  r = r' /\ same_afterwards r r'.
Proof.
  intros r r'. change r' with r. split; [reflexivity|].
  unfold same_afterwards. destruct (final_state (snd r)); done.
Qed.

(** C7: a second call of [initialize] deletes each delegate the first call
    made before it constructs the replacement; the objects of the first
    call are no longer alive afterwards and nothing else is deleted or
    left behind; and the kernel and the delegates it then has are those the
    second call's arguments give (with the kernel's log and platform),
    whatever the first call's arguments were. *)
Theorem initialize_twice_rebuilds `{DelegateMethods}
    (a1 a2 : InitializeArgs) (s0 s1 s2 : State) (t1 t2 : list Event) :
  initialize a1 s0 = (t1, Ok tt s1) ->
  initialize a2 s1 = (t2, Ok tt s2) ->
  exists pb1 pnb1 pb2 pnb2,
    let log := _log (self s0) in
    let platform := getPlatform (self s0) in
    _brookBonded (self s1) = Some pb1 /\
    _brookNonBonded (self s1) = Some pnb1 /\
    t2 = [ Delete ClassBrookBonded pb1;
           New ClassBrookBonded pb2;
           SetLog ClassBrookBonded pb2 log;
           BondedSetup pb2 (bonded_setup_call a2 platform) ] ++
         echo log "%s brookBonded::contents\n%s"
              (BrookBonded.getContentsString (built_bonded a2 log platform)) ++
         [ Delete ClassBrookNonBonded pnb1;
           New ClassBrookNonBonded pnb2;
           SetLog ClassBrookNonBonded pnb2 log;
           NonBondedSetup pnb2 (nonbonded_setup_call a2 platform) ] ++
         echo log "%s brookNonBonded::contents\n%s"
              (BrookNonBonded.getContentsString
                 (built_nonbonded a2 log platform)) /\
    bondedObjects s2 !! pb1 = None /\
    nonBondedObjects s2 !! pnb1 = None /\
    self s2 = mkKernel (Z.of_nat (length (nonbondedParameters a2)))
                       (Some pb2) (Some pnb2) log platform /\
    bondedObjects s2 =
      <[pb2 := built_bonded a2 log platform]> (delete pb1 (bondedObjects s1)) /\
    nonBondedObjects s2 =
      <[pnb2 := built_nonbonded a2 log platform]>
        (delete pnb1 (nonBondedObjects s1)) /\
    bonded_of s2 = Some (built_bonded a2 log platform) /\
    nonbonded_of s2 = Some (built_nonbonded a2 log platform).
Proof.
  intros H1 H2.
  apply initialize_Ok_inv in H1 as (_ & -> & ->).
  apply initialize_Ok_inv in H2 as (_ & -> & ->).
  exists (nextObject s0), (S (nextObject s0)),
         (S (S (nextObject s0))), (S (S (S (nextObject s0)))).
  unfold rebuild_trace, rebuilt, bonded_of, nonbonded_of. simpl.
  repeat split.
  - rewrite lookup_insert_ne by lia. apply lookup_delete_eq.
  - rewrite lookup_insert_ne by lia. apply lookup_delete_eq.
  - apply lookup_insert_eq.
  - apply lookup_insert_eq.
Qed.

Lemma initialize_twice_rebuilds_witness :
  exists pb1 pnb1 pb2 pnb2,
    let log := Some 1%nat in
    let platform := mkPlatform true (Some 1%nat) in
    _brookBonded (self InitializeExamples.once) = Some pb1 /\
    _brookNonBonded (self InitializeExamples.once) = Some pnb1 /\
    fst (@initialize InitializeExamples.stubs InitializeExamples.args2
           InitializeExamples.once) =
         [ Delete ClassBrookBonded pb1;
           New ClassBrookBonded pb2;
           SetLog ClassBrookBonded pb2 log;
           BondedSetup pb2
             (@bonded_setup_call InitializeExamples.args2 platform) ] ++
         echo log "%s brookBonded::contents\n%s"
              (BrookBonded.getContentsString
                 (@built_bonded InitializeExamples.stubs
                    InitializeExamples.args2 log platform)) ++
         [ Delete ClassBrookNonBonded pnb1;
           New ClassBrookNonBonded pnb2;
           SetLog ClassBrookNonBonded pnb2 log;
           NonBondedSetup pnb2
             (@nonbonded_setup_call InitializeExamples.args2 platform) ] ++
         echo log "%s brookNonBonded::contents\n%s"
              (BrookNonBonded.getContentsString
                 (@built_nonbonded InitializeExamples.stubs
                    InitializeExamples.args2 log platform)) /\
    bondedObjects InitializeExamples.twice !! pb1 = None /\
    nonBondedObjects InitializeExamples.twice !! pnb1 = None /\
    self InitializeExamples.twice =
      mkKernel 3 (Some pb2) (Some pnb2) log platform /\
    bondedObjects InitializeExamples.twice =
      <[pb2 := @built_bonded InitializeExamples.stubs
                 InitializeExamples.args2 log platform]>
        (delete pb1 (bondedObjects InitializeExamples.once)) /\
    nonBondedObjects InitializeExamples.twice =
      <[pnb2 := @built_nonbonded InitializeExamples.stubs
                  InitializeExamples.args2 log platform]>
        (delete pnb1 (nonBondedObjects InitializeExamples.once)) /\
    bonded_of InitializeExamples.twice =
      Some (@built_bonded InitializeExamples.stubs
              InitializeExamples.args2 log platform) /\
    nonbonded_of InitializeExamples.twice =
      Some (@built_nonbonded InitializeExamples.stubs
              InitializeExamples.args2 log platform).
Proof.
  apply (@initialize_twice_rebuilds InitializeExamples.stubs
           InitializeExamples.args1 InitializeExamples.args2
           (start InitializeExamples.kernel)
           InitializeExamples.once InitializeExamples.twice
           (fst (@initialize InitializeExamples.stubs InitializeExamples.args1
                   (start InitializeExamples.kernel)))).
  - vm_compute. reflexivity.
  - vm_compute. reflexivity.
Defined.

(** ** Further properties of [executeForces] *)

(** X1: a kernel that was constructed but never initialized has null
    delegate pointers; [executeForces] on it dereferences a null pointer
    before it launches anything. *)
Theorem executeForces_before_initialize
    (platform : Platform) (junk : option FILE) (k : Kernel) :
  construct platform junk = Some k ->
  _brookBonded k = None /\ _brookNonBonded k = None /\
  executeForces (start k) = ([], Undefined).
Proof.
  unfold construct. destruct (isBrookPlatform platform); [|discriminate].
  intros [= <-]. repeat split.
Qed.

Lemma executeForces_before_initialize_witness :
  _brookBonded InitializeExamples.kernel = None /\
  _brookNonBonded InitializeExamples.kernel = None /\
  executeForces (start InitializeExamples.kernel) = ([], Undefined).
Proof.
  apply (executeForces_before_initialize (mkPlatform true (Some 1%nat)) None).
  reflexivity.
Defined.

(** X2: a call that returns makes exactly five calls, all of them kernel
    launches, in this order: the nonbonded evaluator, the merge, the bonded
    evaluator, one of the two (I,K) gathers, the (J,L) gather.  Nothing is
    written to any log. *)
Theorem executeForces_launch_sequence s t s' :
  executeForces s = (t, Ok tt s') ->
  exists g,
    (g = kinvmap_gather3_4 \/ g = kinvmap_gather3_5) /\
    launches t = [ knbforce_CDLJ4; kMergeFloat3_4_nobranch; kbonded_CDLJ;
                   g; kinvmap_gather5_2 ] /\
    length t = 5%nat /\
    List.filter is_log_output t = [].
Proof.
  intros H.
  destruct (executeForces_Ok_inv s t s' H) as (b & nb & _ & _ & _ & Ht).
  destruct Ht as [[_ ->]|[_ ->]];
    [exists kinvmap_gather3_4 | exists kinvmap_gather3_5];
    (split; [auto|]); repeat split.
Qed.

Lemma executeForces_launch_sequence_witness :
  exists g,
    (g = kinvmap_gather3_4 \/ g = kinvmap_gather3_5) /\
    launches (fst (executeForces (Examples.state 3))) =
      [ knbforce_CDLJ4; kMergeFloat3_4_nobranch; kbonded_CDLJ;
        g; kinvmap_gather5_2 ] /\
    length (fst (executeForces (Examples.state 3))) = 5%nat /\
    List.filter is_log_output (fst (executeForces (Examples.state 3))) = [].
Proof.
  apply (executeForces_launch_sequence (Examples.state 3) _ (Examples.state 3)).
  vm_compute. reflexivity.
Defined.

(** X3: on an initialized kernel the K count alone decides how the call
    ends: it returns when the count is at most 5 (zero and negative counts
    included, which take the [kinvmap_gather3_4] branch) and throws when
    the count is 6 or more. *)
Theorem executeForces_outcome_by_K_count s b nb :
  bonded_of s = Some b -> nonbonded_of s = Some nb ->
  (K_count b <= 5 <-> snd (executeForces s) = Ok tt s) /\
  (6 <= K_count b <->
     snd (executeForces s) =
       Thrown (methodName_executeForces +:+ "K-maps=" +:+
               decimal (K_count b) +:+ " not handled.") s) /\
  (K_count b <= 0 ->
     In (Launch kinvmap_gather3_4 (gather3_4_args b)) (fst (executeForces s))).
Proof.
  intros Hb Hnb. rewrite (executeForces_initialized s b nb Hb Hnb).
  destruct (Z.leb_spec (K_count b) 4).
  - repeat split; simpl; try lia; try discriminate. intros _. auto 10.
  - destruct (Z.eqb_spec (K_count b) 5).
    + repeat split; simpl; try lia; discriminate.
    + repeat split; simpl; try lia; try discriminate; try reflexivity.
Qed.

Lemma executeForces_outcome_by_K_count_witness :
  (K_count (Examples.bonded 0) <= 5 <->
     snd (executeForces (Examples.state 0)) = Ok tt (Examples.state 0)) /\
  (6 <= K_count (Examples.bonded 0) <->
     snd (executeForces (Examples.state 0)) =
       Thrown (methodName_executeForces +:+ "K-maps=" +:+
               decimal (K_count (Examples.bonded 0)) +:+ " not handled.")
              (Examples.state 0)) /\
  (K_count (Examples.bonded 0) <= 0 ->
     In (Launch kinvmap_gather3_4 (gather3_4_args (Examples.bonded 0)))
        (fst (executeForces (Examples.state 0)))).
Proof.
  apply (executeForces_outcome_by_K_count (Examples.state 0)
           (Examples.bonded 0) Examples.nonBonded); reflexivity.
Defined.

(** X4: what [executeForces] does is decided by the two delegates alone:
    two kernels whose pointers lead to equal delegates make the same calls
    and end the same way, whatever their atom count, log, platform and
    pointer values are. *)
Theorem executeForces_depends_on_delegates_only s s' :
  bonded_of s = bonded_of s' -> nonbonded_of s = nonbonded_of s' ->
  fst (executeForces s) = fst (executeForces s') /\
  outcome (snd (executeForces s)) = outcome (snd (executeForces s')).
Proof.
  destruct s as [[n pb pnb lg pl] bo nbo nx].
  destruct s' as [[n' pb' pnb' lg' pl'] bo' nbo' nx'].
  unfold bonded_of, nonbonded_of, executeForces, bind, this, deref_nonbonded,
    deref_bonded; simpl.
  intros Hb Hnb.
  assert (Eb : match pb with Some a => bo !! a | None => None end =
               match pb' with Some a => bo' !! a | None => None end) by exact Hb.
  assert (Enb : match pnb with Some a => nbo !! a | None => None end =
                match pnb' with Some a => nbo' !! a | None => None end)
    by exact Hnb.
  clear Hb Hnb.
  destruct pnb as [pnb|], pnb' as [pnb'|];
    try destruct (nbo !! pnb) as [nb|];
    try destruct (nbo' !! pnb') as [nb'|];
    try discriminate Enb; try (injection Enb as <-); try (split; reflexivity);
    simpl;
    destruct pb as [pb|], pb' as [pb'|];
    try destruct (bo !! pb) as [b|];
    try destruct (bo' !! pb') as [b'|];
    try discriminate Eb; try (injection Eb as <-); try (split; reflexivity);
    simpl;
    (destruct (_ <=? 4); [split; reflexivity|]);
    (destruct (_ =? 5); [split; reflexivity|]);
    destruct (BrookBonded.getLog b); split; reflexivity.
Qed.

Lemma executeForces_depends_on_delegates_only_witness :
  fst (executeForces (Examples.state 4)) =
  fst (executeForces
         (mkState (mkKernel 99 (Some 7%nat) (Some 3%nat) None
                            (mkPlatform true None))
                  {[ 7%nat := Examples.bonded 4 ]}
                  {[ 3%nat := Examples.nonBonded ]} 8%nat)) /\
  outcome (snd (executeForces (Examples.state 4))) =
  outcome (snd (executeForces
         (mkState (mkKernel 99 (Some 7%nat) (Some 3%nat) None
                            (mkPlatform true None))
                  {[ 7%nat := Examples.bonded 4 ]}
                  {[ 3%nat := Examples.nonBonded ]} 8%nat))).
Proof.
  apply (executeForces_depends_on_delegates_only (Examples.state 4)
           (mkState (mkKernel 99 (Some 7%nat) (Some 3%nat) None
                              (mkPlatform true None))
                    {[ 7%nat := Examples.bonded 4 ]}
                    {[ 3%nat := Examples.nonBonded ]} 8%nat));
    vm_compute; reflexivity.
Defined.

(** X5: the unsupported K count is reported to the log of the bonded
    delegate, not to the kernel's own log, and only when the delegate has
    one: the call then writes one formatted line carrying the method name
    and the count and flushes; without a log it writes nothing. *)
Theorem executeForces_throw_log s b nb :
  bonded_of s = Some b -> nonbonded_of s = Some nb -> 6 <= K_count b ->
  List.filter is_log_output (fst (executeForces s)) =
    match BrookBonded.getLog b with
    | Some f =>
        [ Fprintf (Some f) "%s nkmaps=%d -- not handled."
                  [ PString "BrookCalcStandardMMForceFieldKernel::executeForces";
                    PInt (K_count b) ];
          Fflush (Some f) ]
    | None => []
    end.
Proof.
  intros Hb Hnb HK. rewrite (executeForces_initialized s b nb Hb Hnb).
  destruct (Z.leb_spec (K_count b) 4); [lia|].
  destruct (Z.eqb_spec (K_count b) 5); [lia|].
  unfold not_handled_log. destruct (BrookBonded.getLog b); reflexivity.
Qed.

Lemma executeForces_throw_log_witness :
  List.filter is_log_output (fst (executeForces (Examples.state 7))) =
    [ Fprintf (Some 1%nat) "%s nkmaps=%d -- not handled."
              [ PString "BrookCalcStandardMMForceFieldKernel::executeForces";
                PInt 7 ];
      Fflush (Some 1%nat) ].
Proof.
  apply (executeForces_throw_log (Examples.state 7) (Examples.bonded 7)
           Examples.nonBonded); [reflexivity | reflexivity | vm_compute; discriminate].
Defined.

Lemma decimal_not_nil n : Z.to_int n <> Decimal.Pos Decimal.Nil /\
                          Z.to_int n <> Decimal.Neg Decimal.Nil.
Proof.
  destruct n as [|p|p]; simpl; split; try discriminate;
    intros [= Hp]; by apply DecimalPos.Unsigned.to_uint_nonnil in Hp.
Qed.

Lemma string_app_inv_tail (a b tail : string) :
  a +:+ tail = b +:+ tail -> a = b.
Proof.
  intros Heq.
  assert (Hl : forall x y, list_ascii_of_string (x +:+ y) =
                           list_ascii_of_string x ++ list_ascii_of_string y).
  { induction x as [|c x IH]; intros y; simpl; [done|]. by rewrite IH. }
  apply (f_equal list_ascii_of_string) in Heq. rewrite !Hl in Heq.
  apply app_inv_tail in Heq.
  rewrite <- (string_of_list_ascii_of_string a),
          <- (string_of_list_ascii_of_string b). by rewrite Heq.
Qed.

(** X6: the count can be read back from its rendering in the message, for
    every count, negative ones included; hence the messages thrown for two
    different counts differ. *)
Theorem not_handled_message_identifies_count (n m : Z) :
  parse_decimal (decimal n) = Some n /\
  (methodName_executeForces +:+ "K-maps=" +:+ decimal n +:+ " not handled." =
   methodName_executeForces +:+ "K-maps=" +:+ decimal m +:+ " not handled." <->
   n = m).
Proof.
  assert (Hparse : forall k, parse_decimal (decimal k) = Some k).
  { intros k. unfold parse_decimal, decimal.
    destruct (decimal_not_nil k) as [Hp Hn].
    rewrite NilZero.isi by done. simpl. by rewrite DecimalZ.of_to. }
  split; [apply Hparse|]. split; [|by intros ->].
  intros Heq. apply String.app_inj in Heq. apply String.app_inj in Heq.
  apply string_app_inv_tail in Heq.
  apply (f_equal parse_decimal) in Heq. rewrite !Hparse in Heq. congruence.
Qed.

(** ** Further properties of the streams *)

Section StreamFacts.

Context {V : Type} (device : KernelName -> list Arg -> list V -> nat -> V).

Lemma write_outputs_other (outs : list StreamRef) (r : StreamRef) :
  forall j f (m : StreamRef -> V),
  r ∉ outs -> write_outputs V j outs f m r = m r.
Proof.
  induction outs as [|o outs IH]; intros j f m Hr; simpl; [done|].
  rewrite IH by set_solver. unfold write.
  destruct (decide (r = o)) as [->|]; [set_solver|done].
Qed.

(** A stream that no event of a trace writes holds afterwards what it held
    before. *)
Lemma run_events_unwritten (t : list Event) (r : StreamRef) :
  forall m : StreamRef -> V,
  Forall (fun e => r ∉ event_writes e) t -> run_events device t m r = m r.
Proof.
  unfold run_events.
  induction t as [|e t IH]; intros m Ht; simpl; [done|].
  inversion Ht as [|? ? He Ht']; subst. rewrite IH by done.
  destruct e; simpl; try done. unfold launch.
  by apply write_outputs_other.
Qed.

End StreamFacts.

(** Every stream a launch of [executeForces] writes is a partial force
    stream or the force stream. *)
Lemma executeForces_writes_are_scratch s :
  forallb (fun e => forallb is_scratch (event_writes e))
          (fst (executeForces s)) = true.
Proof.
  destruct s as [[n pb pnb lg pl] bo nbo nx].
  unfold executeForces, bind, this, deref_nonbonded, deref_bonded; simpl.
  destruct pnb as [pnb|]; [|done].
  destruct (nbo !! pnb) as [nb|]; [|done].
  simpl. destruct pb as [pb|]; [|done].
  destruct (bo !! pb) as [b|]; [|done].
  simpl. destruct (_ <=? 4); [done|]. destruct (_ =? 5); [done|].
  destruct (BrookBonded.getLog b); done.
Qed.

Lemma executeForces_leaves_unwritten
    {V : Type} (device : KernelName -> list Arg -> list V -> nat -> V)
    (s : State) (m : StreamRef -> V) (r : StreamRef) :
  is_scratch r = false ->
  streams_after_executeForces device s m r = m r.
Proof.
  intros Hr. unfold streams_after_executeForces.
  apply run_events_unwritten. apply Forall_forall. intros e He Hin.
  pose proof (executeForces_writes_are_scratch s) as Hall.
  rewrite forallb_forall in Hall. specialize (Hall e).
  rewrite forallb_forall in Hall.
  assert (Hs : is_scratch r = true).
  { apply Hall; [by apply list_elem_of_In | by apply list_elem_of_In]. }
  congruence.
Qed.

(** X7: whatever the kernels compute and however the call ends,
    [executeForces] leaves the positions, the delegates' charge, parameter,
    atom-index, exclusion and inverse-map streams as they were: it writes
    the partial force streams and the force stream only. *)
Theorem executeForces_preserves_inputs
    (V : Type) (device : KernelName -> list Arg -> list V -> nat -> V)
    (s : State) (m : StreamRef -> V) :
  let m' := streams_after_executeForces device s m in
  m' PositionStream = m PositionStream /\
  m' NB_ChargeStream = m NB_ChargeStream /\
  m' NB_OuterVdwStream = m NB_OuterVdwStream /\
  m' NB_InnerSigmaStream = m NB_InnerSigmaStream /\
  m' NB_InnerEpsilonStream = m NB_InnerEpsilonStream /\
  m' NB_ExclusionStream = m NB_ExclusionStream /\
  m' B_ChargeStream = m B_ChargeStream /\
  m' B_AtomIndicesStream = m B_AtomIndicesStream /\
  (forall i, m' (B_ParameterStreams i) = m (B_ParameterStreams i)) /\
  (forall role j, m' (B_InverseStreamMaps role j) = m (B_InverseStreamMaps role j)).
Proof.
  intros m'. subst m'.
  repeat split; intros; by apply executeForces_leaves_unwritten.
Qed.

Lemma run_events_in_place_unwritten
    {V : Type} (device : KernelName -> list Arg -> list V -> list V -> nat -> V)
    (t : list Event) (r : StreamRef) :
  forall m : StreamRef -> V,
  Forall (fun e => r ∉ event_writes e) t ->
  run_events_in_place device t m r = m r.
Proof.
  unfold run_events_in_place.
  induction t as [|e t IH]; intros m Ht; simpl; [done|].
  inversion Ht as [|? ? He Ht']; subst. rewrite IH by done.
  destruct e; simpl; try done. unfold launch_in_place.
  by apply write_outputs_other.
Qed.

(** X8: on an initialized kernel nothing left in the partial force streams
    by an earlier step enters the result, for kernels that may update
    their output in place, provided the two evaluators produce their
    buffers afresh: two runs that start from streams which agree on
    everything but the eight partial force streams end with all streams
    equal, these included.  Each partial force stream is rewritten by its
    evaluator before the merge or a gather reads it, whether the call
    returns or throws. *)
Theorem executeForces_ignores_stale_partial_forces
    (V : Type)
    (device : KernelName -> list Arg -> list V -> list V -> nat -> V)
    (s : State) (m m' : StreamRef -> V) (r : StreamRef) :
  evaluators_write_afresh device ->
  is_Some (bonded_of s) -> is_Some (nonbonded_of s) ->
  (forall r', is_partial_force r' = false -> m r' = m' r') ->
  streams_after_executeForces_in_place device s m r =
  streams_after_executeForces_in_place device s m' r.
Proof.
  intros Hfresh [b Hb] [nb Hnb] Hagree.
  assert (Hn : forall sc ins held held' j,
             device knbforce_CDLJ4 sc ins held j =
             device knbforce_CDLJ4 sc ins held' j) by (intros; apply Hfresh; auto).
  assert (Hk : forall sc ins held held' j,
             device kbonded_CDLJ sc ins held j =
             device kbonded_CDLJ sc ins held' j) by (intros; apply Hfresh; auto).
  unfold streams_after_executeForces_in_place.
  destruct (is_scratch r) eqn:Hr.
  - rewrite (executeForces_initialized s b nb Hb Hnb).
    assert (Hcases : r = ForceStream \/
              (exists i, (i < 4)%nat /\ r = NB_ForceStreams i) \/
              (exists i, (i < 4)%nat /\ r = B_ForceStreams i)).
    { destruct r; try discriminate; simpl in Hr; auto;
        apply Nat.ltb_lt in Hr; eauto. }
    destruct (K_count b <=? 4); [|destruct (K_count b =? 5)];
      unfold not_handled_log; try destruct (BrookBonded.getLog b);
      (destruct Hcases as [->|[(i & Hi & ->)|(i & Hi & ->)]];
       [| destruct i as [|[|[|[|i]]]]; [| | | |lia]
        | destruct i as [|[|[|[|i]]]]; [| | | |lia] ]);
      vm_compute;
      repeat rewrite (Hn _ _ (_ :: _) []);
      repeat rewrite (Hk _ _ (_ :: _) []);
      rewrite ?Hagree by reflexivity; reflexivity.
  - assert (Hw : Forall (fun e => r ∉ event_writes e) (fst (executeForces s))).
    { apply Forall_forall. intros e He Hin.
      pose proof (executeForces_writes_are_scratch s) as Hall.
      rewrite forallb_forall in Hall. specialize (Hall e).
      rewrite forallb_forall in Hall.
      assert (Hs : is_scratch r = true).
      { apply Hall; [by apply list_elem_of_In | by apply list_elem_of_In]. }
      congruence. }
    rewrite !run_events_in_place_unwritten by exact Hw.
    apply Hagree. destruct r; try reflexivity; try discriminate; exact Hr.
Qed.

Lemma executeForces_ignores_stale_partial_forces_witness :
  streams_after_executeForces_in_place
    (spec_device Z.add 0 AccumulationExamples.evaluate
       AccumulationExamples.nonbonded_total)
    (Examples.state 5) AccumulationExamples.streams ForceStream =
  streams_after_executeForces_in_place
    (spec_device Z.add 0 AccumulationExamples.evaluate
       AccumulationExamples.nonbonded_total)
    (Examples.state 5)
    (fun r' => if is_partial_force r' then ForceData (fun _ => 77)
               else AccumulationExamples.streams r')
    ForceStream.
Proof.
  apply (executeForces_ignores_stale_partial_forces (StreamData Z)
           (spec_device Z.add 0 AccumulationExamples.evaluate
              AccumulationExamples.nonbonded_total)
           (Examples.state 5) AccumulationExamples.streams
           (fun r' => if is_partial_force r' then ForceData (fun _ => 77)
                      else AccumulationExamples.streams r')
           ForceStream).
  - intros k scalars inputs held held' j [->| ->]; reflexivity.
  - vm_compute. eauto.
  - vm_compute. eauto.
  - intros r' Hr'. rewrite Hr'. reflexivity.
Defined.


(** ** Further properties of [initialize] and the destructor *)

(** X9: [initialize] leaks nothing: if the live delegate objects are
    exactly the ones the kernel points to, then after a call that returns
    they again are, so however often the kernel is re-initialized it owns
    one [BrookBonded] and one [BrookNonBonded] and no other object is
    alive. *)
Theorem initialize_keeps_ownership `{DelegateMethods}
    (a : InitializeArgs) (s : State) (t : list Event) (s' : State) :
  owns_all_objects s ->
  initialize a s = (t, Ok tt s') ->
  owns_all_objects s' /\
  size (bondedObjects s') = 1%nat /\ size (nonBondedObjects s') = 1%nat.
Proof.
  intros [Hb Hnb] Hrun. apply initialize_Ok_inv in Hrun as (_ & _ & ->).
  assert (Eb : dom (bondedObjects (rebuilt a s)) = {[nextObject s]}).
  { unfold rebuilt. simpl. rewrite dom_insert_L.
    destruct (_brookBonded (self s)) as [p|]; simpl.
    - by rewrite dom_delete_L, Hb, difference_diag_L, (right_id_L ∅ (∪)).
    - by rewrite Hb, (right_id_L ∅ (∪)). }
  assert (Enb : dom (nonBondedObjects (rebuilt a s)) = {[S (nextObject s)]}).
  { unfold rebuilt. simpl. rewrite dom_insert_L.
    destruct (_brookNonBonded (self s)) as [p|]; simpl.
    - by rewrite dom_delete_L, Hnb, difference_diag_L, (right_id_L ∅ (∪)).
    - by rewrite Hnb, (right_id_L ∅ (∪)). }
  split; [split; [exact Eb | exact Enb]|].
  rewrite <- !size_dom, Eb, Enb, !size_singleton. done.
Qed.

Lemma initialize_keeps_ownership_witness :
  owns_all_objects InitializeExamples.twice /\
  size (bondedObjects InitializeExamples.twice) = 1%nat /\
  size (nonBondedObjects InitializeExamples.twice) = 1%nat.
Proof.
  apply (@initialize_keeps_ownership InitializeExamples.stubs
           InitializeExamples.args2 InitializeExamples.once
           (fst (@initialize InitializeExamples.stubs InitializeExamples.args2
                   InitializeExamples.once))).
  - split; vm_compute; reflexivity.
  - vm_compute. reflexivity.
Defined.

(** X10: the destructor deletes the two delegates and nothing is left
    alive; on a kernel that was never initialized both pointers are null
    and it deletes nothing. *)
Theorem destroy_releases_everything (s : State) :
  owns_all_objects s -> pointers_live s ->
  exists s',
    destroy s =
      (delete_event ClassBrookBonded (_brookBonded (self s)) ++
       delete_event ClassBrookNonBonded (_brookNonBonded (self s)),
       Ok tt s') /\
    bondedObjects s' = ∅ /\ nonBondedObjects s' = ∅.
Proof.
  destruct s as [[n pb pnb lg pl] bo nbo nx].
  unfold owns_all_objects, pointers_live. simpl.
  intros [Hb Hnb] [Lb Lnb].
  assert (Eb : delete_opt pb bo = ∅).
  { apply dom_empty_inv_L. destruct pb as [pb|]; simpl; [|done].
    by rewrite dom_delete_L, Hb, difference_diag_L. }
  assert (Enb : delete_opt pnb nbo = ∅).
  { apply dom_empty_inv_L. destruct pnb as [pnb|]; simpl; [|done].
    by rewrite dom_delete_L, Hnb, difference_diag_L. }
  unfold destroy, bind, this, ret, delete_bonded, delete_nonbonded.
  destruct pb as [pb|]; [destruct Lb as [b0 Lb]|];
    (destruct pnb as [pnb|]; [destruct Lnb as [nb0 Lnb]|]);
    simpl in *; rewrite ?Lb; simpl; rewrite ?Lnb; simpl;
    eexists; (split; [reflexivity|]); simpl; auto.
Qed.

Lemma destroy_releases_everything_witness :
  exists s',
    destroy InitializeExamples.twice =
      ([Delete ClassBrookBonded 2%nat; Delete ClassBrookNonBonded 3%nat],
       Ok tt s') /\
    bondedObjects s' = ∅ /\ nonBondedObjects s' = ∅.
Proof.
  apply (destroy_releases_everything InitializeExamples.twice).
  - split; vm_compute; reflexivity.
  - split; vm_compute; eauto.
Defined.

(** X11: after a call of [initialize] that returns, [executeForces] never
    meets a null or dead delegate: it runs on the two delegates that call
    built, and it returns or throws according to the K count of the bonded
    delegate alone. *)
Theorem initialize_then_executeForces `{DelegateMethods}
    (a : InitializeArgs) (s : State) (t : list Event) (s' : State) :
  initialize a s = (t, Ok tt s') ->
  let b := built_bonded a (_log (self s)) (getPlatform (self s)) in
  let nb := built_nonbonded a (_log (self s)) (getPlatform (self s)) in
  bonded_of s' = Some b /\ nonbonded_of s' = Some nb /\
  outcome (snd (executeForces s')) =
    if K_count b <=? 5 then Some None
    else Some (Some (methodName_executeForces +:+ "K-maps=" +:+
                     decimal (K_count b) +:+ " not handled.")).
Proof.
  intros Hrun b nb. apply initialize_Ok_inv in Hrun as (_ & _ & ->).
  assert (Hb : bonded_of (rebuilt a s) = Some b).
  { unfold bonded_of, rebuilt. simpl. apply lookup_insert_eq. }
  assert (Hnb : nonbonded_of (rebuilt a s) = Some nb).
  { unfold nonbonded_of, rebuilt. simpl. apply lookup_insert_eq. }
  split; [done|]. split; [done|].
  rewrite (executeForces_initialized _ b nb Hb Hnb).
  destruct (Z.leb_spec (K_count b) 4), (Z.leb_spec (K_count b) 5);
    try lia; try reflexivity.
  destruct (Z.eqb_spec (K_count b) 5); [reflexivity|lia].
  destruct (Z.eqb_spec (K_count b) 5); [lia|reflexivity].
Qed.

Lemma initialize_then_executeForces_witness :
  let b := @built_bonded InitializeExamples.stubs InitializeExamples.args1
             (Some 1%nat) (mkPlatform true (Some 1%nat)) in
  let nb := @built_nonbonded InitializeExamples.stubs InitializeExamples.args1
              (Some 1%nat) (mkPlatform true (Some 1%nat)) in
  bonded_of InitializeExamples.once = Some b /\
  nonbonded_of InitializeExamples.once = Some nb /\
  outcome (snd (executeForces InitializeExamples.once)) =
    if K_count b <=? 5 then Some None
    else Some (Some (methodName_executeForces +:+ "K-maps=" +:+
                     decimal (K_count b) +:+ " not handled.")).
Proof.
  apply (@initialize_then_executeForces InitializeExamples.stubs
           InitializeExamples.args1 (start InitializeExamples.kernel)
           (fst (@initialize InitializeExamples.stubs InitializeExamples.args1
                   (start InitializeExamples.kernel)))
           InitializeExamples.once).
  vm_compute. reflexivity.
Defined.

(** X12: [initialize] writes to the log only when the kernel has one.
    With a log it writes, for each delegate and after that delegate's
    [setup], one formatted line with the delegate's contents string as it
    is after [setup], and flushes; without a log it writes nothing. *)
Theorem initialize_log_output `{DelegateMethods}
    (a : InitializeArgs) (s : State) (t : list Event) (s' : State) :
  initialize a s = (t, Ok tt s') ->
  List.filter is_log_output t =
    match _log (self s) with
    | Some f =>
        [ Fprintf (Some f) "%s brookBonded::contents\n%s"
            [ PString "BrookCalcStandardMMForceFieldKernel::initialize";
              PString (BrookBonded.getContentsString
                         (built_bonded a (Some f) (getPlatform (self s)))) ];
          Fflush (Some f);
          Fprintf (Some f) "%s brookNonBonded::contents\n%s"
            [ PString "BrookCalcStandardMMForceFieldKernel::initialize";
              PString (BrookNonBonded.getContentsString
                         (built_nonbonded a (Some f) (getPlatform (self s)))) ];
          Fflush (Some f) ]
    | None => []
    end.
Proof.
  intros Hrun. apply initialize_Ok_inv in Hrun as (_ & -> & _).
  unfold rebuild_trace, delete_event, echo.
  destruct (_brookBonded (self s)), (_brookNonBonded (self s)),
    (_log (self s)); reflexivity.
Qed.

Lemma initialize_log_output_witness :
  List.filter is_log_output
    (fst (@initialize InitializeExamples.stubs InitializeExamples.args1
            (start InitializeExamples.kernel))) =
    [ Fprintf (Some 1%nat) "%s brookBonded::contents\n%s"
        [ PString "BrookCalcStandardMMForceFieldKernel::initialize";
          PString "bonded" ];
      Fflush (Some 1%nat);
      Fprintf (Some 1%nat) "%s brookNonBonded::contents\n%s"
        [ PString "BrookCalcStandardMMForceFieldKernel::initialize";
          PString "nonbonded" ];
      Fflush (Some 1%nat) ].
Proof.
  apply (@initialize_log_output InitializeExamples.stubs
           InitializeExamples.args1 (start InitializeExamples.kernel)
           _ InitializeExamples.once).
  vm_compute. reflexivity.
Defined.

(** X13: a call of [initialize] that returns constructs exactly one
    [BrookBonded] and one [BrookNonBonded], and deletes exactly the
    delegates the kernel pointed to before the call: none on the first
    call, when both pointers are null. *)
Theorem initialize_allocations `{DelegateMethods}
    (a : InitializeArgs) (s : State) (t : list Event) (s' : State) :
  initialize a s = (t, Ok tt s') ->
  List.filter is_new t =
    [ New ClassBrookBonded (nextObject s);
      New ClassBrookNonBonded (S (nextObject s)) ] /\
  List.filter is_delete t =
    match _brookBonded (self s) with
    | Some p => [Delete ClassBrookBonded p]
    | None => []
    end ++
    match _brookNonBonded (self s) with
    | Some p => [Delete ClassBrookNonBonded p]
    | None => []
    end.
Proof.
  intros Hrun. apply initialize_Ok_inv in Hrun as (_ & -> & _).
  unfold rebuild_trace, delete_event, echo.
  destruct (_brookBonded (self s)), (_brookNonBonded (self s)),
    (_log (self s)); split; reflexivity.
Qed.

Lemma initialize_allocations_witness :
  List.filter is_new
    (fst (@initialize InitializeExamples.stubs InitializeExamples.args1
            (start InitializeExamples.kernel))) =
    [ New ClassBrookBonded 0%nat; New ClassBrookNonBonded 1%nat ] /\
  List.filter is_delete
    (fst (@initialize InitializeExamples.stubs InitializeExamples.args1
            (start InitializeExamples.kernel))) = [] ++ [].
Proof.
  apply (@initialize_allocations InitializeExamples.stubs
           InitializeExamples.args1 (start InitializeExamples.kernel)
           _ InitializeExamples.once).
  vm_compute. reflexivity.
Defined.

(** X14: [setLog] replaces the kernel's log and nothing else, and the log
    that [initialize] hands to both delegates and echoes to is the one set
    last: after [setLog( log )], [getLog] returns [log], and a following
    [initialize] calls [setLog( log )] on each delegate it builds. *)
Theorem setLog_then_initialize `{DelegateMethods}
    (DefaultReturnValue : Z) (log : option FILE) (a : InitializeArgs)
    (s : State) :
  pointers_live s ->
  exists s1,
    setLog DefaultReturnValue log s = ([], Ok DefaultReturnValue s1) /\
    getLog s1 = ([], Ok log s1) /\
    _numberOfAtoms (self s1) = _numberOfAtoms (self s) /\
    _brookBonded (self s1) = _brookBonded (self s) /\
    _brookNonBonded (self s1) = _brookNonBonded (self s) /\
    getPlatform (self s1) = getPlatform (self s) /\
    bondedObjects s1 = bondedObjects s /\
    nonBondedObjects s1 = nonBondedObjects s /\
    exists t s2,
      initialize a s1 = (t, Ok tt s2) /\
      List.filter is_set_log t =
        [ SetLog ClassBrookBonded (nextObject s) log;
          SetLog ClassBrookNonBonded (S (nextObject s)) log ] /\
      bonded_of s2 = Some (built_bonded a log (getPlatform (self s))) /\
      nonbonded_of s2 = Some (built_nonbonded a log (getPlatform (self s))).
Proof.
  intros Hlive. eexists. split; [reflexivity|].
  repeat (split; [reflexivity|]).
  eexists _, _. split.
  - apply initialize_spec. exact Hlive.
  - unfold rebuild_trace, delete_event, echo, rebuilt, bonded_of, nonbonded_of.
    simpl. rewrite !lookup_insert_eq.
    destruct (_brookBonded (self s)), (_brookNonBonded (self s)), log;
      repeat split.
Qed.

Lemma setLog_then_initialize_witness :
  exists s1,
    setLog 0 None InitializeExamples.once = ([], Ok 0 s1) /\
    getLog s1 = ([], Ok None s1) /\
    _numberOfAtoms (self s1) = _numberOfAtoms (self InitializeExamples.once) /\
    _brookBonded (self s1) = _brookBonded (self InitializeExamples.once) /\
    _brookNonBonded (self s1) = _brookNonBonded (self InitializeExamples.once) /\
    getPlatform (self s1) = getPlatform (self InitializeExamples.once) /\
    bondedObjects s1 = bondedObjects InitializeExamples.once /\
    nonBondedObjects s1 = nonBondedObjects InitializeExamples.once /\
    exists t s2,
      @initialize InitializeExamples.stubs InitializeExamples.args2 s1 =
        (t, Ok tt s2) /\
      List.filter is_set_log t =
        [ SetLog ClassBrookBonded (nextObject InitializeExamples.once) None;
          SetLog ClassBrookNonBonded (S (nextObject InitializeExamples.once))
                 None ] /\
      bonded_of s2 =
        Some (@built_bonded InitializeExamples.stubs InitializeExamples.args2
                None (getPlatform (self InitializeExamples.once))) /\
      nonbonded_of s2 =
        Some (@built_nonbonded InitializeExamples.stubs InitializeExamples.args2
                None (getPlatform (self InitializeExamples.once))).
Proof.
  apply (@setLog_then_initialize InitializeExamples.stubs 0 None
           InitializeExamples.args2 InitializeExamples.once).
  split; vm_compute; eauto.
Defined.
